(** * Atropos: the device instrumentation lifecycle of [auto_ssl_bypass.py]

    A shallow embedding of the provisioning pipeline (debug-bridge checks,
    architecture resolution, server artifact download, server start) and of
    the instrumentation session, followed by the properties of the
    specification that concern them.

    Conventions.
    - A Python [str] is a Rocq [string] holding its UTF-8 bytes; a Python
      [bytes] value is a [string] holding the bytes themselves.  Literals,
      concatenation, equality and the [in] test agree under this reading.
      A local file holds bytes; reading it in text mode decodes them and
      translates the ends of lines, reading it in binary mode does not.
    - The outside world (the debug bridge, the release server, the
      instrumentation runtime, the operating system) is an oracle [Env]
      that answers every request from the history of events so far, so a
      statement quantified over [Env] covers every sequence of replies.
    - [sys.exit] is the outcome [Exit]; it is not an [Exception] and no
      [except Exception] clause stops it.
    - Writing to the console is an event that always succeeds; the
      callback registered for the messages of the script is recorded by
      its registration only, its later invocations by the runtime are
      outside the model, as is the time the program spends waiting. *)

From Stdlib Require Import ZArith Ascii.
From stdpp Require Import base option list strings gmap fin_maps.

Local Open Scope Z_scope.

(** ** Text *)

Module Text.

Definition code (c : ascii) : N := Ascii.N_of_ascii c.

Definition between (lo hi n : N) : bool := ((lo <=? n) && (n <=? hi))%N.

(** The line feed, written [\n] in the source. *)
Definition nl : string := String (Ascii.ascii_of_N 10) EmptyString.

(** The double quote. *)
Definition dquote : string := String (Ascii.ascii_of_N 34) EmptyString.

(** [needle in hay] on [str]. *)
Fixpoint contains (needle hay : string) : bool :=
  String.prefix needle hay ||
  match hay with
  | EmptyString => false
  | String _ rest => contains needle rest
  end.

(** The characters [str.strip()] removes: the code points for which
    [str.isspace] holds, as UTF-8 byte sequences. *)
Definition ascii_space (c : ascii) : bool :=
  between 9 13 (code c) || between 28 32 (code c).

(** [space_head s] is the text after the white-space character at the head
    of [s], when there is one. *)
Definition space_head (s : string) : option string :=
  match s with
  | String c0 r0 =>
      if ascii_space c0 then Some r0 else
      match r0 with
      | String c1 r1 =>
          if (code c0 =? 194)%N && ((code c1 =? 133) || (code c1 =? 160))%N
          then Some r1 else
          match r1 with
          | String c2 r2 =>
              let b0 := code c0 in let b1 := code c1 in let b2 := code c2 in
              if ((b0 =? 225) && (b1 =? 154) && (b2 =? 128))%N
                 || ((b0 =? 226) && (b1 =? 128)
                     && (between 128 138 b2 || between 168 169 b2 || (b2 =? 175)))%N
                 || ((b0 =? 226) && (b1 =? 129) && (b2 =? 159))%N
                 || ((b0 =? 227) && (b1 =? 128) && (b2 =? 128))%N
              then Some r2 else None
          | EmptyString => None
          end
      | EmptyString => None
      end
  | EmptyString => None
  end.

Fixpoint lstrip_fuel (fuel : nat) (s : string) : string :=
  match fuel with
  | O => s
  | S fuel' =>
      match space_head s with
      | Some rest => lstrip_fuel fuel' rest
      | None => s
      end
  end.

(** Every step removes at least one byte, so the length is enough fuel. *)
Definition lstrip (s : string) : string := lstrip_fuel (String.length s) s.

(** [all_space s]: [s] consists of white-space characters only. *)
Definition all_space (s : string) : bool :=
  match lstrip s with EmptyString => true | _ => false end.

(** Keeps the shortest prefix after which only white space follows. *)
Fixpoint rstrip (s : string) : string :=
  match s with
  | EmptyString => EmptyString
  | String c rest => if all_space s then EmptyString else String c (rstrip rest)
  end.

Definition strip (s : string) : string := rstrip (lstrip s).

(** [bytes.decode("utf-8")]: the text, when the bytes are well-formed UTF-8
    (shortest form, no surrogates, at most U+10FFFF). *)
Definition cont (n : N) : bool := between 128 191 n.

Fixpoint utf8_valid (s : string) : bool :=
  match s with
  | EmptyString => true
  | String c0 r0 =>
      let b0 := code c0 in
      if (b0 <? 128)%N then utf8_valid r0 else
      match r0 with
      | EmptyString => false
      | String c1 r1 =>
          let b1 := code c1 in
          if between 194 223 b0 && cont b1 then utf8_valid r1 else
          match r1 with
          | EmptyString => false
          | String c2 r2 =>
              let b2 := code c2 in
              if cont b2 &&
                 (((b0 =? 224)%N && between 160 191 b1)
                  || (between 225 236 b0 && cont b1)
                  || ((b0 =? 237)%N && between 128 159 b1)
                  || (between 238 239 b0 && cont b1))
              then utf8_valid r2 else
              match r2 with
              | EmptyString => false
              | String c3 r3 =>
                  let b3 := code c3 in
                  if cont b2 && cont b3 &&
                     (((b0 =? 240)%N && between 144 191 b1)
                      || (between 241 243 b0 && cont b1)
                      || ((b0 =? 244)%N && between 128 143 b1))
                  then utf8_valid r3 else false
              end
          end
      end
  end.

Definition decode_utf8 (raw : string) : option string :=
  if utf8_valid raw then Some raw else None.

(** What reading in text mode does to the ends of lines: a carriage
    return followed by a line feed, and a carriage return alone, both
    become one line feed. *)
Fixpoint universal_newlines (s : string) : string :=
  match s with
  | EmptyString => EmptyString
  | String c rest =>
      if (code c =? 13)%N then
        match rest with
        | String c' rest' =>
            if (code c' =? 10)%N
            then String (Ascii.ascii_of_N 10) (universal_newlines rest')
            else String (Ascii.ascii_of_N 10) (universal_newlines rest)
        | EmptyString => String (Ascii.ascii_of_N 10) EmptyString
        end
      else String c (universal_newlines rest)
  end.

End Text.

(** ** Exceptions *)

(** The exception classes that can reach the handlers of the program, with
    the parent of each in Python's hierarchy.  [SystemExit] is the outcome
    [Exit] below and is left out here. *)
Inductive pyclass :=
| BaseException | Exception | KeyboardInterrupt
| OSError | FileNotFoundError | PermissionError
| SubprocessError | CalledProcessError
| ValueError | UnicodeDecodeError
| RequestException | HTTPError | ConnectionError
| LZMAError
| TransportError | ServerNotRunningError | TimedOutError | InvalidArgumentError.

Global Instance pyclass_eq_dec : EqDecision pyclass.
Proof. solve_decision. Defined.

Definition parent (c : pyclass) : option pyclass :=
  match c with
  | BaseException => None
  | Exception | KeyboardInterrupt => Some BaseException
  | OSError | SubprocessError | ValueError | LZMAError => Some Exception
  | TransportError | ServerNotRunningError | TimedOutError
  | InvalidArgumentError => Some Exception
  | FileNotFoundError | PermissionError | RequestException => Some OSError
  | CalledProcessError => Some SubprocessError
  | UnicodeDecodeError => Some ValueError
  | HTTPError | ConnectionError => Some RequestException
  end.

Fixpoint issubclass_fuel (fuel : nat) (c d : pyclass) : bool :=
  bool_decide (c = d) ||
  match fuel, parent c with
  | S fuel', Some p => issubclass_fuel fuel' p d
  | _, _ => false
  end.

(** No chain of parents is longer than four. *)
Definition issubclass (c d : pyclass) : bool := issubclass_fuel 4 c d.

(** A raised exception: its class and [str(e)].  The exceptions raised by
    the library functions modelled below carry an abbreviated text; the
    program only ever prints it. *)
Record exn := mkExn { exn_class : pyclass; exn_str : string }.

(** [except cls:] stops [e]. *)
Definition isinstance (e : exn) (cls : pyclass) : bool :=
  issubclass (exn_class e) cls.

(** ** The outside world *)

(** [subprocess.CompletedProcess]. *)
Record CompletedProcess := mkCompleted {
  returncode : Z;
  stdout : string;
  stderr : string
}.

(** [requests.Response], as far as the program reads it. *)
Record Response := mkResponse {
  status_code : Z;
  content : string
}.

(** The colours handed to [termcolor.colored]; every call passes
    [attrs=["bold"]]. *)
Inductive Color := light_green | light_red | light_grey | light_blue.

(** Requests to the local file system. *)
Inductive FileOp :=
| OpenWrite (path : string)          (* open(path, "wb") *)
| WriteData (path data : string)     (* f.write(data) *)
| OpenRead (path : string)           (* open(path, "r"), lzma.open(path, "rb") *)
| ReadData (path : string)           (* f.read() *)
| Remove (path : string).            (* os.remove(path) *)

(** Requests to the instrumentation runtime.  Devices, process ids,
    sessions and scripts are handles chosen by the runtime. *)
Inductive FridaCall :=
| GetUsbDevice (timeout : Z)
| Spawn (device : Z) (program : list string)
| Attach (device pid : Z)
| Resume (device pid : Z)
| CreateScript (session : Z) (source : string)
| ScriptOn (script : Z) (signal : string)
| ScriptLoad (script : Z).

(** What the program does to the outside world, each request with the
    reply it got. *)
Inductive Event :=
| EvPrint (color : Color) (text : string)
| EvRun (argv : list string) (shell : bool) (reply : CompletedProcess + exn)
| EvPopen (argv : list string) (reply : option exn)
| EvSleep (seconds : Z)
| EvHttpGet (url : string) (reply : Response + exn)
| EvFile (op : FileOp) (failure : option exn)
| EvFrida (call : FridaCall) (reply : Z + exn)
| EvStdinRead (reply : string + exn).

(** The oracle.  Every field receives the events so far, latest first. *)
Record Env := mkEnv {
  (* subprocess.run and subprocess.check_output: the finished process, or
     the exception raised while starting or reading it *)
  env_run : list Event -> list string -> bool -> CompletedProcess + exn;
  (* subprocess.Popen: the exception raised while starting, if any *)
  env_popen : list Event -> list string -> option exn;
  (* requests.get *)
  env_http_get : list Event -> string -> Response + exn;
  (* a failure of the operating system on a file request, if any *)
  env_file_failure : list Event -> FileOp -> option exn;
  (* lzma decompression of a whole stream; None when it is malformed *)
  env_lzma_decompress : string -> option string;
  (* the instrumentation runtime *)
  env_frida : list Event -> FridaCall -> Z + exn;
  (* sys.stdin.read(): the input up to end of file, or the interruption *)
  env_stdin_read : list Event -> string + exn;
  (* str.title(): Unicode case mapping *)
  env_title : string -> string;
  (* art.text2art(text, font) *)
  env_text2art : string -> string -> string;
  (* the decoding of a file opened in text mode, in the preferred encoding
     of the platform; None when the bytes are not text in it *)
  env_decode_text : string -> option string
}.

(** The local files, by path as the program spells it. *)
Abbreviation files := (gmap string string).

(** ** Computations *)

Inductive outcome (A : Type) :=
| Ret (a : A)
| Raise (e : exn)
| Exit (status : Z).
Arguments Ret {A} a.
Arguments Raise {A} e.
Arguments Exit {A} status.

(** The result of running a computation: how it ended, the events it
    issued in the order they happened, and the files it leaves. *)
Record Run (A : Type) := mkRun {
  outcome_of : outcome A;
  emitted : list Event;
  files_after : files
}.
Arguments mkRun {A} _ _ _.
Arguments outcome_of {A} _.
Arguments emitted {A} _.
Arguments files_after {A} _.

(** A computation runs against the oracle, the history (latest first) and
    the files. *)
Definition M (A : Type) : Type := Env -> list Event -> files -> Run A.

Definition ret {A} (a : A) : M A := fun _ _ fs => mkRun (Ret a) [] fs.

Definition raise {A} (e : exn) : M A := fun _ _ fs => mkRun (Raise e) [] fs.

(** [sys.exit(status)] *)
Definition sys_exit {A} (status : Z) : M A := fun _ _ fs => mkRun (Exit status) [] fs.

Definition bind {A B} (m : M A) (k : A -> M B) : M B :=
  fun env h fs =>
    match m env h fs with
    | mkRun (Ret a) evs fs1 =>
        match k a env (rev_append evs h) fs1 with
        | mkRun o evs' fs2 => mkRun o (evs ++ evs') fs2
        end
    | mkRun (Raise e) evs fs1 => mkRun (Raise e) evs fs1
    | mkRun (Exit c) evs fs1 => mkRun (Exit c) evs fs1
    end.

(** [try: body except ...: handler]: [clauses e] is the body of the first
    clause that stops [e], if any. *)
Definition try_except {A} (body : M A) (clauses : exn -> option (M A)) : M A :=
  fun env h fs =>
    match body env h fs with
    | mkRun (Raise e) evs fs1 =>
        match clauses e with
        | Some handler =>
            match handler env (rev_append evs h) fs1 with
            | mkRun o evs' fs2 => mkRun o (evs ++ evs') fs2
            end
        | None => mkRun (Raise e) evs fs1
        end
    | r => r
    end.

Declare Scope py_scope.
Delimit Scope py_scope with py.
Notation "x <- m ;; k" := (bind m (fun x => k))
  (at level 100, m at next level, right associativity) : py_scope.
Notation "m ;; k" := (bind m (fun _ => k))
  (at level 100, right associativity) : py_scope.
Local Open Scope py_scope.

(** The oracle and the local files, as the computation finds them. *)
Definition get_env : M Env := fun env _ fs => mkRun (Ret env) [] fs.
Definition get_files : M files := fun _ _ fs => mkRun (Ret fs) [] fs.

(** One request whose reply depends on the oracle and the files. *)
Definition request {A} (ask : Env -> list Event -> files -> outcome A * Event * files)
  : M A :=
  fun env h fs => let '(o, ev, fs') := ask env h fs in mkRun o [ev] fs'.

Definition of_reply {A} (r : A + exn) : outcome A :=
  match r with inl a => Ret a | inr e => Raise e end.

Definition of_failure (f : option exn) : outcome unit :=
  match f with None => Ret tt | Some e => Raise e end.

(** [print(colored(text, color, attrs=["bold"]))] *)
Definition print_colored (color : Color) (text : string) : M unit :=
  request (fun _ _ fs => (Ret tt, EvPrint color text, fs)).

(** [subprocess.run(argv, capture_output=True, ...)], without [check]: the
    exit status of the process is not looked at. *)
Definition subprocess_run (argv : list string) (shell : bool) : M CompletedProcess :=
  request (fun env h fs =>
    let reply := env_run env h argv shell in
    (of_reply reply, EvRun argv shell reply, fs)).

(** [subprocess.check_output(argv)]: the bytes of the standard output, or
    [CalledProcessError] when the exit status is not zero. *)
Definition subprocess_check_output (argv : list string) : M string :=
  cp <- subprocess_run argv false ;;
  if returncode cp =? 0 then ret (stdout cp)
  else raise (mkExn CalledProcessError "Command returned non-zero exit status").

(** [subprocess.Popen(argv, stdout=DEVNULL, stderr=DEVNULL)] *)
Definition subprocess_popen (argv : list string) : M unit :=
  request (fun env h fs =>
    let reply := env_popen env h argv in
    (of_failure reply, EvPopen argv reply, fs)).

(** [time.sleep(seconds)] *)
Definition time_sleep (seconds : Z) : M unit :=
  request (fun _ _ fs => (Ret tt, EvSleep seconds, fs)).

(** [requests.get(url)] *)
Definition requests_get (url : string) : M Response :=
  request (fun env h fs =>
    let reply := env_http_get env h url in
    (of_reply reply, EvHttpGet url reply, fs)).

(** [response.raise_for_status()]: client and server error statuses raise. *)
Definition raise_for_status (r : Response) : M unit :=
  if (400 <=? status_code r) && (status_code r <? 600)
  then raise (mkExn HTTPError "HTTP error") else ret tt.

(** [bytes.decode("utf-8")] *)
Definition decode (raw : string) : M string :=
  match Text.decode_utf8 raw with
  | Some s => ret s
  | None => raise (mkExn UnicodeDecodeError "invalid utf-8")
  end.

(** A file request the operating system may refuse; [effect] is applied to
    the files when it does not. *)
Definition file_request (op : FileOp) (effect : files -> files) : M unit :=
  request (fun env h fs =>
    let failure := env_file_failure env h op in
    (of_failure failure, EvFile op failure,
     match failure with None => effect fs | Some _ => fs end)).

Definition file_missing {A} (op : FileOp) : M A :=
  request (fun _ _ fs =>
    let e := mkExn FileNotFoundError "No such file or directory" in
    (Raise e, EvFile op (Some e), fs)).

(** [os.path.exists(path)] *)
Definition os_path_exists (path : string) : M bool :=
  fs <- get_files ;;
  ret (bool_decide (is_Some (fs !! path))).

(** [open(path, "wb")]: the file is created, or emptied. *)
Definition open_write (path : string) : M unit :=
  file_request (OpenWrite path) (fun fs => <[path := EmptyString]> fs).

(** [f.write(data)] on a file opened by [open_write]. *)
Definition write_data (path data : string) : M unit :=
  file_request (WriteData path data)
    (fun fs => <[path := default EmptyString (fs !! path) +:+ data]> fs).

(** [open(path, "r")] and [lzma.open(path, "rb")]: the file must exist. *)
Definition open_read (path : string) : M unit :=
  fs <- get_files ;;
  match fs !! path with
  | Some _ => file_request (OpenRead path) (fun fs => fs)
  | None => file_missing (OpenRead path)
  end.

(** [f.read()] on a file opened in binary mode by [open_read]: the bytes
    as stored. *)
Definition read_data (path : string) : M string :=
  file_request (ReadData path) (fun fs => fs) ;;
  fs <- get_files ;;
  ret (default EmptyString (fs !! path)).

(** [f.read()] on a file opened in text mode by [open(path, "r")]: the
    bytes are decoded in the preferred encoding, which fails on bytes that
    are not text, and the ends of lines become line feeds. *)
Definition read_text (path : string) : M string :=
  raw <- read_data path ;;
  env <- get_env ;;
  match env_decode_text env raw with
  | Some text => ret (Text.universal_newlines text)
  | None => raise (mkExn UnicodeDecodeError "invalid start byte")
  end.

(** [compressed.read()] on a file opened by [lzma.open]. *)
Definition lzma_read (path : string) : M string :=
  raw <- read_data path ;;
  env <- get_env ;;
  match env_lzma_decompress env raw with
  | Some data => ret data
  | None => raise (mkExn LZMAError "Input format not supported by decoder")
  end.

(** [os.remove(path)] *)
Definition os_remove (path : string) : M unit :=
  fs <- get_files ;;
  match fs !! path with
  | Some _ => file_request (Remove path) (delete path)
  | None => file_missing (Remove path)
  end.

(** One call of the instrumentation runtime. *)
Definition frida (call : FridaCall) : M Z :=
  request (fun env h fs =>
    let reply := env_frida env h call in
    (of_reply reply, EvFrida call reply, fs)).

(** [sys.stdin.read()] *)
Definition stdin_read : M string :=
  request (fun env h fs =>
    let reply := env_stdin_read env h in
    (of_reply reply, EvStdinRead reply, fs)).

(** [s.title()] *)
Definition title (s : string) : M string :=
  env <- get_env ;;
  ret (env_title env s).

(** ** The program *)

(** The table of [get_device_arch], from the ABI names of the device to
    the names of the server releases. *)
Definition arch_map : gmap string string :=
  {[ "arm64-v8a" := "android-arm64";
     "armeabi-v7a" := "android-arm";
     "x86" := "android-x86";
     "x86_64" := "android-x86_64" ]}.

(** The ABI names the table covers. *)
Definition supported_abis : list string :=
  ["arm64-v8a"; "armeabi-v7a"; "x86"; "x86_64"].

(** [d.get(key, fallback)] *)
Definition dict_get (d : gmap string string) (key fallback : string) : string :=
  default fallback (d !! key).

(** The mapping step of [get_device_arch]: [arch_map.get(arch, arch)]. *)
Definition resolve (arch : string) : string := dict_get arch_map arch arch.

Definition get_device_arch : M string :=
  try_except
    (result <- subprocess_run ["adb"; "shell"; "getprop"; "ro.product.cpu.abi"] false ;;
     let arch := Text.strip (stdout result) in
     print_colored light_green ("[✔] Device architecture: " +:+ arch) ;;
     ret (resolve arch))
    (fun e =>
       if isinstance e CalledProcessError then Some (
         print_colored light_red
           "[-] Error: Unable to get device architecture. Is ADB connected?" ;;
         sys_exit 1)
       else None).

Definition check_adb_availability : M bool :=
  try_except
    (subprocess_run ["adb"; "version"] false ;;
     ret true)
    (fun e =>
       if isinstance e FileNotFoundError then Some (
         print_colored light_red
           "[-] ADB not found. Please install ADB and add it to your PATH." ;;
         sys_exit 1)
       else None).

Definition _get_prop (prop_name : string) : M string :=
  try_except
    (result <- subprocess_check_output ["adb"; "shell"; "getprop"; prop_name] ;;
     text <- decode result ;;
     ret (Text.strip text))
    (fun e =>
       if isinstance e CalledProcessError then Some (ret "Unknown") else None).

Definition no_device_message : string :=
  "[-] Error: No device connected. Please connect an Android device.".

Definition check_device_connection : M unit :=
  result <- subprocess_run ["adb"; "get-state"] false ;;
  (if negb (Text.contains "device" (stdout result)) then
     print_colored light_red no_device_message ;;
     sys_exit 1
   else ret tt) ;;
  manufacturer <- _get_prop "ro.product.manufacturer" ;;
  manufacturer <- title manufacturer ;;
  device <- _get_prop "ro.product.device" ;;
  device <- title device ;;
  release <- _get_prop "ro.build.version.release" ;;
  print_colored light_green
    ("[✔] Device " +:+ manufacturer +:+ " " +:+ device +:+ " with Android "
     +:+ release +:+ " detected and connected").

Definition launch_scrcpy : M unit :=
  try_except
    (subprocess_popen ["scrcpy"] ;;
     print_colored light_green "[✔] Launched mirror device screen")
    (fun e =>
       if isinstance e FileNotFoundError then Some (
         print_colored light_red
           "[-] scrcpy not found. Make sure it's installed and in your PATH.")
       else if isinstance e Exception then Some (
         print_colored light_red ("[-] Failed to launch scrcpy: " +:+ exn_str e))
       else None).

Definition remote_server_path : string := "/data/local/tmp/frida-server".

Definition check_existing_frida_server : M bool :=
  try_except
    (result <- subprocess_run ["adb"; "shell"; "ls"; remote_server_path] false ;;
     (if returncode result =? 0 then
        print_colored light_grey
          "[*] Frida server already exists on device, starting server..."
      else ret tt) ;;
     ret (returncode result =? 0))
    (fun e => if isinstance e Exception then Some (ret false) else None).

(** [su -c "command"], the privileged shell string of the source. *)
Definition su_c (command : string) : string :=
  "su -c " +:+ Text.dquote +:+ command +:+ Text.dquote.

Definition kill_argv : list string :=
  ["adb"; "shell"; su_c "pkill -9 frida-server"].
Definition chmod_argv : list string :=
  ["adb"; "shell"; su_c "chmod 755 /data/local/tmp/frida-server"].
Definition launch_argv : list string :=
  ["adb"; "shell"; su_c "/data/local/tmp/frida-server -D"].
Definition push_argv (filename : string) : list string :=
  ["adb"; "push"; filename; remote_server_path].

(** The truth value of the [filename] argument: [None] and the empty
    string are false. *)
Definition truthy (filename : option string) : option string :=
  match filename with
  | Some f => if String.eqb f EmptyString then None else Some f
  | None => None
  end.

Definition server_running_message : string :=
  "[✔] Frida server is running! You can now use Frida for injection".

Definition start_frida (filename : option string) : M unit :=
  try_except
    (print_colored light_grey "[*] Attempting to kill existing Frida server..." ;;
     subprocess_run kill_argv true ;;
     time_sleep 1 ;;
     match truthy filename with
     | Some f =>
         print_colored light_grey "[*] Pushing Frida server to device..." ;;
         result <- subprocess_run (push_argv f) false ;;
         if negb (String.eqb (stderr result) EmptyString) && Text.contains "pushed" (stderr result)
         then print_colored light_green ("[+] " +:+ Text.strip (stderr result))
         else ret tt
     | None => ret tt
     end ;;
     print_colored light_grey "[*] Setting permissions..." ;;
     subprocess_run chmod_argv true ;;
     print_colored light_grey "[*] Running Frida server..." ;;
     subprocess_run launch_argv true ;;
     print_colored light_green server_running_message)
    (fun e =>
       if isinstance e CalledProcessError then Some (
         print_colored light_red ("[-] Error: " +:+ exn_str e) ;;
         sys_exit 1)
       else None).

Definition release_base : string :=
  "https://github.com/frida/frida/releases/download/".

Definition artifact_name (frida_version arch : string) : string :=
  "frida-server-" +:+ frida_version +:+ "-" +:+ arch.

Definition compressed_name (frida_version arch : string) : string :=
  artifact_name frida_version arch +:+ ".xz".

(** The address [download_frida_server] fetches. *)
Definition download_url (frida_version arch : string) : string :=
  (release_base +:+ frida_version) +:+ "/" +:+ compressed_name frida_version arch.

Definition download_frida_server (frida_version arch : string) : M string :=
  let base_url := release_base +:+ frida_version in
  let filename := artifact_name frida_version arch in
  let url := base_url +:+ "/" +:+ filename +:+ ".xz" in
  print_colored light_grey ("[*] Downloading Frida server from: " +:+ url) ;;
  try_except
    (response <- requests_get url ;;
     raise_for_status response ;;
     print_colored light_green "[✔] Download successful, Decompressing..." ;;
     (* save the compressed content *)
     open_write (filename +:+ ".xz") ;;
     write_data (filename +:+ ".xz") (content response) ;;
     (* decompress *)
     open_read (filename +:+ ".xz") ;;
     open_write "frida-server" ;;
     data <- lzma_read (filename +:+ ".xz") ;;
     write_data "frida-server" data ;;
     (* clean up *)
     os_remove (filename +:+ ".xz") ;;
     stale <- os_path_exists filename ;;
     (if stale then os_remove filename else ret tt) ;;
     ret "frida-server")
    (fun e =>
       if isinstance e Exception then Some (
         print_colored light_red ("[-] Error downloading Frida server: " +:+ exn_str e) ;;
         sys_exit 1)
       else None).

Definition not_found_message (script_path : string) : string :=
  "[-] JavaScript file not found: " +:+ script_path.

Definition _validate_js_file (script_path : string) : M bool :=
  found <- os_path_exists script_path ;;
  if negb found then
    print_colored light_red (not_found_message script_path) ;;
    ret false
  else ret true.

Definition _load_js_code (script_path : string) : M string :=
  try_except
    (valid <- _validate_js_file script_path ;;
     if valid then
       open_read script_path ;;
       read_text script_path
     else sys_exit 1)
    (fun e =>
       if isinstance e Exception then Some (
         print_colored light_red ("[-] Failed to read JS file: " +:+ exn_str e) ;;
         sys_exit 1)
       else None).

Definition frida_version : string := "16.5.9".

Definition start_frida_server : M unit :=
  print_colored light_grey "[*] Starting Frida server setup..." ;;
  check_adb_availability ;;
  check_device_connection ;;
  launch_scrcpy ;;
  device_arch <- get_device_arch ;;
  print_colored light_grey "[*] Using Frida version: 16.5.9" ;;
  existing <- check_existing_frida_server ;;
  if existing then
    start_frida None
  else
    filename <- download_frida_server frida_version device_arch ;;
    start_frida (Some filename) ;;
    (* clean up downloaded files *)
    left_over <- os_path_exists filename ;;
    if left_over then os_remove filename else ret tt.

Definition script_path : string := "./MAIN_SSLPINING.js".

Definition target_app : string := "com.facebook.katana".

(** The handler registered for the messages of the script. *)
Definition on_message (message : string) : M unit :=
  print_colored light_grey ("[Frida] " +:+ message).

Definition unreachable_message : string :=
  "[-] Failed to connect to the device. Ensure Frida server is running.".

Definition generic_message (e : exn) : string := "[-] Error: " +:+ exn_str e.

Definition hook_proxygen_SSLVerification : M unit :=
  js_code <- _load_js_code script_path ;;
  try_except
    (device <- frida (GetUsbDevice 5) ;;
     print_colored light_grey "[*] Spawning com.facebook.katana..." ;;
     (* spawn and attach *)
     pid <- frida (Spawn device [target_app]) ;;
     session <- frida (Attach device pid) ;;
     frida (Resume device pid) ;;
     (* load the external JavaScript *)
     script <- frida (CreateScript session js_code) ;;
     frida (ScriptOn script "message") ;;
     frida (ScriptLoad script) ;;
     print_colored light_green "[✔] Script loaded and running. Press Ctrl+C to stop." ;;
     stdin_read ;;
     ret tt)
    (fun e =>
       if isinstance e TransportError then Some (
         print_colored light_red unreachable_message ;;
         sys_exit 1)
       else if isinstance e Exception then Some (
         print_colored light_red (generic_message e) ;;
         sys_exit 1)
       else None).

Definition create_logo : M unit :=
  env <- get_env ;;
  let app_logo := env_text2art env (Text.nl +:+ "Atropos") "roman" in
  print_colored light_blue "welcome to project" ;;
  print_colored light_blue app_logo.

(** The script run as [__main__]. *)
Definition main : M unit :=
  create_logo ;;
  start_frida_server ;;
  hook_proxygen_SSLVerification.

(** ** Observations on the events of a run *)

Definition is_http_get (ev : Event) : bool :=
  match ev with EvHttpGet _ _ => true | _ => false end.

(** A request that creates or changes a local file. *)
Definition is_local_write (ev : Event) : bool :=
  match ev with
  | EvFile (OpenWrite _) _ | EvFile (WriteData _ _) _ => true
  | _ => false
  end.

Definition is_file_request (ev : Event) : bool :=
  match ev with EvFile _ _ => true | _ => false end.

(** [adb push ...] *)
Definition is_push (ev : Event) : bool :=
  match ev with
  | EvRun argv _ _ => bool_decide (take 2 argv = ["adb"; "push"])
  | _ => false
  end.

Definition is_frida (ev : Event) : bool :=
  match ev with EvFrida _ _ => true | _ => false end.

Definition none_of (p : Event -> bool) (evs : list Event) : bool :=
  forallb (fun ev => negb (p ev)) evs.

(** The probe of [check_existing_frida_server]: the [ls] of the remote
    path. *)
Definition is_probe (ev : Event) : bool :=
  match ev with
  | EvRun argv _ _ => bool_decide (argv = ["adb"; "shell"; "ls"; remote_server_path])
  | _ => false
  end.

(** The probe found the binary: it finished with status 0. *)
Definition found_on_device (ev : Event) : bool :=
  is_probe ev &&
  match ev with
  | EvRun _ _ (inl cp) => returncode cp =? 0
  | _ => false
  end.

(** The probe did not find the binary: it finished with another status,
    or failed with an exception. *)
Definition missing_on_device (ev : Event) : bool :=
  is_probe ev &&
  match ev with
  | EvRun _ _ (inl cp) => negb (returncode cp =? 0)
  | _ => true
  end.

(** The connectivity check: [adb get-state]. *)
Definition is_get_state (ev : Event) : bool :=
  match ev with
  | EvRun argv _ _ => bool_decide (argv = ["adb"; "get-state"])
  | _ => false
  end.

(** The connectivity check failed: it finished and its output does not
    contain "device". *)
Definition no_device_reported (ev : Event) : bool :=
  is_get_state ev &&
  match ev with
  | EvRun _ _ (inl cp) => negb (Text.contains "device" (stdout cp))
  | _ => false
  end.

(** Footprints: what the events of a part of the pipeline never are. *)
Definition setup_event (ev : Event) : bool :=
  negb (is_http_get ev) && negb (is_file_request ev) && negb (is_push ev)
  && negb (is_frida ev) && negb (is_probe ev).

Definition deploy_event (ev : Event) : bool :=
  negb (is_http_get ev) && negb (is_file_request ev)
  && negb (is_frida ev) && negb (is_probe ev).

Definition download_event (ev : Event) : bool :=
  negb (is_push ev) && negb (is_frida ev) && negb (is_probe ev).

Definition past_check_event (ev : Event) : bool := negb (is_get_state ev).

Definition before_check_event (ev : Event) : bool :=
  setup_event ev && negb (is_get_state ev).

(** Neither a download, nor a write to a local file, nor a push. *)
Definition no_transfer (ev : Event) : bool :=
  negb (is_http_get ev) && negb (is_local_write ev) && negb (is_push ev).

(** Every command the oracle is asked to run starts and finishes, with
    whatever exit status and output. *)
Definition every_command_completes (env : Env) : Prop :=
  forall h argv shell, exists cp, env_run env h argv shell = inl cp.

(** The kinds of call of the instrumentation runtime. *)
Inductive FridaKind :=
| KConnect | KSpawn | KAttach | KResume | KCreateScript | KOn | KLoad.

Global Instance FridaKind_eq_dec : EqDecision FridaKind.
Proof. solve_decision. Defined.

Definition kind_of (call : FridaCall) : FridaKind :=
  match call with
  | GetUsbDevice _ => KConnect
  | Spawn _ _ => KSpawn
  | Attach _ _ => KAttach
  | Resume _ _ => KResume
  | CreateScript _ _ => KCreateScript
  | ScriptOn _ _ => KOn
  | ScriptLoad _ => KLoad
  end.

(** The runtime calls of a run, in the order they were issued. *)
Fixpoint frida_calls (evs : list Event) : list FridaKind :=
  match evs with
  | [] => []
  | EvFrida call _ :: rest => kind_of call :: frida_calls rest
  | _ :: rest => frida_calls rest
  end.

(** The order in which the source issues them. *)
Definition issued_order : list FridaKind :=
  [KConnect; KSpawn; KAttach; KResume; KCreateScript; KOn; KLoad].

(** The order the interface section of the specification lists. *)
Definition listed_order : list FridaKind :=
  [KConnect; KSpawn; KAttach; KCreateScript; KOn; KLoad; KResume].

(** Every resume in [calls] comes after a script creation and a load. *)
Fixpoint loaded_before_resume (seen calls : list FridaKind) : bool :=
  match calls with
  | [] => true
  | k :: rest =>
      (if bool_decide (k = KResume)
       then bool_decide (KCreateScript ∈ seen) && bool_decide (KLoad ∈ seen)
       else true)
      && loaded_before_resume (k :: seen) rest
  end.

(** Every script creation in [calls] comes after a resume. *)
Fixpoint resumed_before_script (seen calls : list FridaKind) : bool :=
  match calls with
  | [] => true
  | k :: rest =>
      (if bool_decide (k = KCreateScript) then bool_decide (KResume ∈ seen) else true)
      && resumed_before_script (k :: seen) rest
  end.

(** The files a run created or emptied, in that order. *)
Fixpoint opened_for_writing (evs : list Event) : list string :=
  match evs with
  | [] => []
  | EvFile (OpenWrite p) None :: rest => p :: opened_for_writing rest
  | _ :: rest => opened_for_writing rest
  end.

(** The addresses a run requested over HTTP, in that order. *)
Fixpoint http_urls (evs : list Event) : list string :=
  match evs with
  | [] => []
  | EvHttpGet url _ :: rest => url :: http_urls rest
  | _ :: rest => http_urls rest
  end.

(** The exception with which a call of the runtime failed, if one did. *)
Fixpoint runtime_failure (evs : list Event) : option exn :=
  match evs with
  | [] => None
  | EvFrida _ (inr e) :: _ => Some e
  | _ :: rest => runtime_failure rest
  end.

(** The data writes of a run that succeeded, as (path, data). *)
Fixpoint data_writes (evs : list Event) : list (string * string) :=
  match evs with
  | [] => []
  | EvFile (WriteData p d) None :: rest => (p, d) :: data_writes rest
  | _ :: rest => data_writes rest
  end.

(** ** Sample environments *)

Module Sample.

Definition completed (rc : Z) (out err : string) : CompletedProcess + exn :=
  inl (mkCompleted rc out err).

(** A debug bridge with one device in state [state], of ABI [abi], that
    answers the probe of the remote binary with status [ls_status]. *)
Definition bridge (state abi : string) (ls_status : Z) (argv : list string)
  : CompletedProcess + exn :=
  if bool_decide (argv = ["adb"; "get-state"]) then completed 0 state EmptyString
  else if bool_decide (argv = ["adb"; "shell"; "getprop"; "ro.product.cpu.abi"])
  then completed 0 (abi +:+ Text.nl) EmptyString
  else if bool_decide (argv = ["adb"; "shell"; "getprop"; "ro.product.manufacturer"])
  then completed 0 ("google" +:+ Text.nl) EmptyString
  else if bool_decide (argv = ["adb"; "shell"; "getprop"; "ro.product.device"])
  then completed 1 EmptyString EmptyString
  else if bool_decide (argv = ["adb"; "shell"; "ls"; remote_server_path])
  then completed ls_status EmptyString EmptyString
  else if bool_decide (argv = kill_argv) then completed 1 EmptyString "no process found"
  else completed 0 EmptyString EmptyString.

(** A runtime that hands out the handles 1 (device), 2 (pid), 3 (session)
    and 4 (script). *)
Definition runtime (call : FridaCall) : Z + exn :=
  match call with
  | GetUsbDevice _ => inl 1
  | Spawn _ _ => inl 2
  | Attach _ _ => inl 3
  | CreateScript _ _ => inl 4
  | _ => inl 0
  end.

Definition world (run : list string -> CompletedProcess + exn)
    (http : Response + exn) (rt : FridaCall -> Z + exn) : Env :=
  {| env_run := fun _ argv _ => run argv;
     env_popen := fun _ _ => None;
     env_http_get := fun _ _ => http;
     env_file_failure := fun _ _ => None;
     env_lzma_decompress := fun raw => Some ("ELF" +:+ raw);
     env_frida := fun _ call => rt call;
     env_stdin_read := fun _ => inl EmptyString;
     env_title := id;
     env_text2art := fun text _ => text;
     env_decode_text := Text.decode_utf8 |}.

(** The server binary is already on the device. *)
Definition provisioned : Env :=
  world (bridge "device" "arm64-v8a" 0) (inr (mkExn ConnectionError "offline")) runtime.

(** The server binary is not on the device and the release downloads. *)
Definition fresh : Env :=
  world (bridge "device" "arm64-v8a" 1) (inl (mkResponse 200 "xz-stream")) runtime.

(** No device is connected. *)
Definition unplugged : Env :=
  world (fun _ => completed 1 EmptyString "error: no devices/emulators found")
        (inl (mkResponse 200 "xz-stream")) runtime.

(** The runtime fails with [e] whenever it is asked to spawn. *)
Definition failing_spawn (e : exn) : Env :=
  world (bridge "device" "arm64-v8a" 0) (inl (mkResponse 200 "xz-stream"))
        (fun call => match call with Spawn _ _ => inr e | _ => runtime call end).

(** The local files when the payload is in place. *)
Definition with_payload : files := {[ script_path := "Interceptor.attach(...)" ]}.

End Sample.

(** ** Further observations *)

(** A command handed to the shell ([shell=True]): the kill, chmod and
    launch of [start_frida]. *)
Definition is_shell_command (ev : Event) : bool :=
  match ev with EvRun _ true _ => true | _ => false end.

(** The commands a run started, in that order. *)
Fixpoint run_commands (evs : list Event) : list (list string) :=
  match evs with
  | [] => []
  | EvRun argv _ _ :: rest => argv :: run_commands rest
  | _ :: rest => run_commands rest
  end.

(** The calls a run made to the instrumentation runtime with their
    replies, in that order. *)
Fixpoint frida_exchanges (evs : list Event) : list (FridaCall * (Z + exn)) :=
  match evs with
  | [] => []
  | EvFrida call reply :: rest => (call, reply) :: frida_exchanges rest
  | _ :: rest => frida_exchanges rest
  end.

(** What the session stage may do: print, read a local file, call the
    runtime, read the standard input. *)
Definition session_event (ev : Event) : bool :=
  match ev with
  | EvPrint _ _ | EvFrida _ _ | EvStdinRead _ => true
  | EvFile (OpenRead _) _ | EvFile (ReadData _) _ => true
  | _ => false
  end.

(** The release server answered with a client or server error status. *)
Definition http_error (ev : Event) : bool :=
  match ev with
  | EvHttpGet _ (inl r) => (400 <=? status_code r) && (status_code r <? 600)
  | _ => false
  end.

(** The bodies a run received over HTTP with a status that is no error. *)
Fixpoint downloaded (evs : list Event) : list string :=
  match evs with
  | [] => []
  | EvHttpGet _ (inl r) :: rest =>
      if (400 <=? status_code r) && (status_code r <? 600) then downloaded rest
      else content r :: downloaded rest
  | _ :: rest => downloaded rest
  end.

(** What comes before the server is deployed: no push, no command
    handed to the shell, no call of the runtime. *)
Definition before_deploy_event (ev : Event) : bool :=
  negb (is_push ev) && negb (is_shell_command ev) && negb (is_frida ev).

Definition before_download_event (ev : Event) : bool :=
  before_deploy_event ev && negb (is_http_get ev).

Definition not_frida (ev : Event) : bool := negb (is_frida ev).

Definition not_http (ev : Event) : bool := negb (is_http_get ev).

(** The text a read in text mode gives for the bytes [raw] of a file,
    when they are text. *)
Definition read_as_text (env : Env) (raw : string) : option string :=
  Text.universal_newlines <$> env_decode_text env raw.

(** The operating system refuses no file request. *)
Definition files_never_fail (env : Env) : Prop :=
  forall h op, env_file_failure env h op = None.

(** An outcome that is not an [Exception] left to the caller. *)
Definition no_exception {A} (o : outcome A) : Prop :=
  match o with
  | Raise e => isinstance e Exception = false
  | _ => True
  end.

(** The caller goes on, or is interrupted by something that is not an
    [Exception]: no [sys.exit], no [Exception] left to it. *)
Definition proceeds {A} (o : outcome A) : Prop :=
  match o with
  | Ret _ => True
  | Raise e => isinstance e Exception = false
  | Exit _ => False
  end.

(** The standard output of every finished command is UTF-8 text. *)
Definition outputs_are_text (env : Env) : Prop :=
  forall h argv shell cp,
    env_run env h argv shell = inl cp -> Text.utf8_valid (stdout cp) = true.

(** [m] never ends in [sys.exit] with a status other than 1. *)
Definition exits_with_one {A} (m : M A) : Prop :=
  forall env h fs,
    match outcome_of (m env h fs) with
    | Exit c => c = 1
    | _ => True
    end.

(** The commands of [start_frida], by the truth value of its argument. *)
Definition deploy_commands (filename : option string) : list (list string) :=
  match truthy filename with
  | Some f => [kill_argv; push_argv f; chmod_argv; launch_argv]
  | None => [kill_argv; chmod_argv; launch_argv]
  end.

Module Scenario.

(** The release server answers with status [status]. *)
Definition release_status (status : Z) : Env :=
  Sample.world (Sample.bridge "device" "arm64-v8a" 1)
    (inl (mkResponse status "body")) Sample.runtime.

(** The release server sends a body that is not an xz stream. *)
Definition corrupt_release : Env :=
  {| env_run := fun _ argv _ => Sample.bridge "device" "arm64-v8a" 1 argv;
     env_popen := fun _ _ => None;
     env_http_get := fun _ _ => inl (mkResponse 200 "not-xz");
     env_file_failure := fun _ _ => None;
     env_lzma_decompress := fun _ => None;
     env_frida := fun _ call => Sample.runtime call;
     env_stdin_read := fun _ => inl EmptyString;
     env_title := id;
     env_text2art := fun text _ => text;
     env_decode_text := Text.decode_utf8 |}.

(** Every property query fails. *)
Definition mute_properties (argv : list string) : CompletedProcess + exn :=
  if bool_decide (argv = ["adb"; "get-state"])
  then Sample.completed 0 ("device" +:+ Text.nl) EmptyString
  else Sample.completed 1 EmptyString EmptyString.

Definition mute : Env :=
  Sample.world mute_properties (inl (mkResponse 200 "xz-stream")) Sample.runtime.

(** The screen mirror cannot be started. *)
Definition no_mirror (e : exn) : Env :=
  {| env_run := fun _ argv _ => Sample.bridge "device" "arm64-v8a" 0 argv;
     env_popen := fun _ _ => Some e;
     env_http_get := fun _ _ => inl (mkResponse 200 "xz-stream");
     env_file_failure := fun _ _ => None;
     env_lzma_decompress := fun raw => Some raw;
     env_frida := fun _ call => Sample.runtime call;
     env_stdin_read := fun _ => inl EmptyString;
     env_title := id;
     env_text2art := fun text _ => text;
     env_decode_text := Text.decode_utf8 |}.

(** The debug bridge cannot be started for the probe. *)
Definition probe_raises (e : exn) (argv : list string) : CompletedProcess + exn :=
  if bool_decide (argv = ["adb"; "shell"; "ls"; remote_server_path]) then inr e
  else Sample.bridge "device" "arm64-v8a" 0 argv.

(** Every command ends with status 0 and one byte of output that is no
    UTF-8. *)
Definition stray_byte : string := String (Ascii.ascii_of_N 255) EmptyString.

Definition garbled : Env :=
  Sample.world (fun _ => Sample.completed 0 stray_byte EmptyString)
    (inr (mkExn ConnectionError "offline")) Sample.runtime.

(** The runtime fails with [e] when asked for the device. *)
Definition failing_connect (e : exn) : Env :=
  Sample.world (Sample.bridge "device" "arm64-v8a" 0)
    (inl (mkResponse 200 "xz-stream"))
    (fun call => match call with GetUsbDevice _ => inr e | _ => Sample.runtime call end).

(** A payload saved with carriage returns, and one that is not text. *)
Definition dos_payload : files :=
  {[ script_path :=
       "send(1);" +:+ String (Ascii.ascii_of_N 13) Text.nl +:+ "send(2);"
       +:+ String (Ascii.ascii_of_N 13) EmptyString ]}.

Definition binary_payload : files :=
  {[ script_path := String (Ascii.ascii_of_N 255) "send(1);" ]}.

(** Local files beside the payload. *)
Definition crowded : files :=
  {[ script_path := "Interceptor.attach(...)";
     "notes.txt" := "keep me";
     "frida-server" := "old binary";
     "frida-server-16.5.9-android-arm64" := "stale" ]}.

End Scenario.

(** ** Reasoning about runs *)

(** [wp m env h fs Q]: the run of [m] ends in an outcome, with events and
    files, that satisfy [Q]. *)
Definition wp {A} (m : M A) (env : Env) (h : list Event) (fs : files)
    (Q : outcome A -> list Event -> files -> Prop) : Prop :=
  Q (outcome_of (m env h fs)) (emitted (m env h fs)) (files_after (m env h fs)).

(** The events of a run continue with [evs]. *)
Definition after {A} (evs : list Event)
    (Q : outcome A -> list Event -> files -> Prop)
  : outcome A -> list Event -> files -> Prop :=
  fun o evs' fs => Q o (evs ++ evs') fs.

(** [respects P keep m]: every event [m] issues satisfies [P], and when
    [keep] is set [m] leaves the local files as they were. *)
Definition respects {A} (P : Event -> bool) (keep : bool) (m : M A) : Prop :=
  forall env h fs,
    forallb P (emitted (m env h fs)) = true /\
    (keep = true -> files_after (m env h fs) = fs).

Lemma wp_ret {A} (a : A) env h fs Q : Q (Ret a) [] fs -> wp (ret a) env h fs Q.
Proof. done. Qed.

Lemma wp_raise {A} (e : exn) env h fs (Q : outcome A -> _) :
  Q (Raise e) [] fs -> wp (raise e) env h fs Q.
Proof. done. Qed.

Lemma wp_sys_exit {A} c env h fs (Q : outcome A -> _) :
  Q (Exit c) [] fs -> wp (sys_exit c) env h fs Q.
Proof. done. Qed.

Lemma wp_get_env env h fs Q : Q (Ret env) [] fs -> wp get_env env h fs Q.
Proof. done. Qed.

Lemma wp_get_files env h fs Q : Q (Ret fs) [] fs -> wp get_files env h fs Q.
Proof. done. Qed.

Lemma wp_request {A} (ask : Env -> list Event -> files -> outcome A * Event * files)
    env h fs Q :
  Q (ask env h fs).1.1 [(ask env h fs).1.2] (ask env h fs).2 ->
  wp (request ask) env h fs Q.
Proof. unfold wp, request. by destruct (ask env h fs) as [[o ev] fs']. Qed.

Lemma wp_bind {A B} (m : M A) (k : A -> M B) env h fs Q :
  wp m env h fs (fun o evs fs1 =>
    match o with
    | Ret a => wp (k a) env (rev_append evs h) fs1 (after evs Q)
    | Raise e => Q (Raise e) evs fs1
    | Exit c => Q (Exit c) evs fs1
    end) ->
  wp (bind m k) env h fs Q.
Proof.
  unfold wp, after, bind. destruct (m env h fs) as [[a|e|c] evs fs1]; cbn; [|done..].
  by destruct (k a env (rev_append evs h) fs1).
Qed.

Lemma wp_try_except {A} (body : M A) clauses env h fs Q :
  wp body env h fs (fun o evs fs1 =>
    match o with
    | Raise e =>
        match clauses e with
        | Some handler => wp handler env (rev_append evs h) fs1 (after evs Q)
        | None => Q (Raise e) evs fs1
        end
    | _ => Q o evs fs1
    end) ->
  wp (try_except body clauses) env h fs Q.
Proof.
  unfold wp, after, try_except. destruct (body env h fs) as [[a|e|c] evs fs1]; cbn; [done| |done].
  destruct (clauses e) as [handler|]; [|done].
  by destruct (handler env (rev_append evs h) fs1).
Qed.

Lemma wp_respects {A} P keep (m : M A) env h fs (Q : outcome A -> _) :
  respects P keep m ->
  (forall o evs fs', forallb P evs = true -> (keep = true -> fs' = fs) -> Q o evs fs') ->
  wp m env h fs Q.
Proof. intros Hm HQ. destruct (Hm env h fs). by apply HQ. Qed.

Lemma respects_ret {A} P keep (a : A) : respects P keep (ret a).
Proof. done. Qed.

Lemma respects_raise {A} P keep e : respects P keep (@raise A e).
Proof. done. Qed.

Lemma respects_sys_exit {A} P keep c : respects P keep (@sys_exit A c).
Proof. done. Qed.

Lemma respects_get_env P keep : respects P keep get_env.
Proof. done. Qed.

Lemma respects_get_files P keep : respects P keep get_files.
Proof. done. Qed.

Lemma respects_request {A} P keep
    (ask : Env -> list Event -> files -> outcome A * Event * files) :
  (forall env h fs,
     P (ask env h fs).1.2 = true /\ (keep = true -> (ask env h fs).2 = fs)) ->
  respects P keep (request ask).
Proof.
  intros H env h fs. specialize (H env h fs). unfold request.
  destruct (ask env h fs) as [[o ev] fs']; cbn in *.
  destruct H as [-> H]. done.
Qed.

Lemma respects_bind {A B} P keep (m : M A) (k : A -> M B) :
  respects P keep m -> (forall a, respects P keep (k a)) -> respects P keep (bind m k).
Proof.
  intros Hm Hk env h fs. unfold bind.
  destruct (Hm env h fs) as [Hev Hfs].
  destruct (m env h fs) as [[a|e|c] evs fs1]; cbn in *; [|done..].
  destruct (Hk a env (rev_append evs h) fs1) as [Hev' Hfs'].
  destruct (k a env (rev_append evs h) fs1) as [o evs' fs2]; cbn in *.
  rewrite forallb_app, Hev, Hev'. split; [done|].
  intros Hkeep. by rewrite Hfs', Hfs.
Qed.

Lemma respects_try_except {A} P keep (body : M A) clauses :
  respects P keep body ->
  (forall e handler, clauses e = Some handler -> respects P keep handler) ->
  respects P keep (try_except body clauses).
Proof.
  intros Hb Hc env h fs. unfold try_except.
  destruct (Hb env h fs) as [Hev Hfs].
  destruct (body env h fs) as [[a|e|c] evs fs1]; cbn in *; [done| |done].
  destruct (clauses e) as [handler|] eqn:Hcl; [|done].
  destruct (Hc e handler Hcl env (rev_append evs h) fs1) as [Hev' Hfs'].
  destruct (handler env (rev_append evs h) fs1) as [o evs' fs2]; cbn in *.
  rewrite forallb_app, Hev, Hev'. split; [done|].
  intros Hkeep. by rewrite Hfs', Hfs.
Qed.

(** Sequencing after a computation of known footprint. *)
Lemma wp_bind_respects {A B} P keep (m : M A) (k : A -> M B) env h fs Q :
  respects P keep m ->
  (forall o evs fs1,
     forallb P evs = true -> (keep = true -> fs1 = fs) ->
     match o with
     | Ret a => wp (k a) env (rev_append evs h) fs1 (after evs Q)
     | Raise e => Q (Raise e) evs fs1
     | Exit c => Q (Exit c) evs fs1
     end) ->
  wp (bind m k) env h fs Q.
Proof. intros Hm HQ. apply wp_bind. by eapply wp_respects. Qed.

(** ** Proof steps *)

Ltac head_of t := lazymatch t with ?f _ => head_of f | _ => t end.

(** One step through the structure of a computation. *)
Ltac wp_step :=
  lazymatch goal with
  | |- wp (bind _ _) _ _ _ _ => apply wp_bind
  | |- wp (try_except _ _) _ _ _ _ => apply wp_try_except
  | |- wp (ret _) _ _ _ _ => apply wp_ret
  | |- wp (raise _) _ _ _ _ => apply wp_raise
  | |- wp (sys_exit _) _ _ _ _ => apply wp_sys_exit
  | |- wp get_env _ _ _ _ => apply wp_get_env
  | |- wp get_files _ _ _ _ => apply wp_get_files
  | |- wp (request _) _ _ _ _ => apply wp_request; cbn [fst snd]
  | |- wp (if ?b then _ else _) _ _ _ _ => destruct b eqn:?
  | |- wp (match ?x with _ => _ end) _ _ _ _ =>
      first [ progress cbn [truthy] | destruct x eqn:? ]
  | |- wp ?m _ _ _ _ => let f := head_of m in unfold f
  | |- after _ _ _ _ _ => unfold after at 1
  | |- match of_reply ?r with _ => _ end => destruct r eqn:?; cbn [of_reply]
  | |- match of_failure ?r with _ => _ end => destruct r eqn:?; cbn [of_failure]
  | |- match (if ?b then _ else _) with _ => _ end => destruct b eqn:?
  end; cbn beta iota zeta; cbn [app rev_append].

Ltac wp_run := repeat wp_step.

(** The requirement on one event, by evaluation. *)
Ltac solve_event := first [ reflexivity | vm_compute; reflexivity ].

Ltac solve_keep :=
  first [ reflexivity
        | intros; repeat case_match; reflexivity
        | let H := fresh in intros H; discriminate H ].

(** The footprint of a computation, following its structure. *)
Ltac respects_step :=
  lazymatch goal with
  | |- respects _ _ (bind _ _) => apply respects_bind; [ | intros ? ]
  | |- respects _ _ (try_except _ _) =>
      apply respects_try_except;
      [ | let H := fresh "Hclause" in
          intros ? ? H; cbn beta in H; repeat case_match; simplify_eq ]
  | |- respects _ _ (ret _) => apply respects_ret
  | |- respects _ _ (raise _) => apply respects_raise
  | |- respects _ _ (sys_exit _) => apply respects_sys_exit
  | |- respects _ _ get_env => apply respects_get_env
  | |- respects _ _ get_files => apply respects_get_files
  | |- respects _ _ (request _) =>
      apply respects_request; intros; cbn [fst snd]; split; [ solve_event | solve_keep ]
  | |- respects _ _ (if ?b then _ else _) => destruct b
  | |- respects _ _ (match ?x with _ => _ end) =>
      first [ progress cbn [truthy] | destruct x ]
  | |- respects _ _ ?m => let f := head_of m in unfold f
  end.

Ltac solve_respects := repeat respects_step.

(** ** The text functions and the class hierarchy, on examples *)

Example strip_both_ends :
  Text.strip (" " +:+ Text.nl +:+ "ab c " +:+ Text.nl) = "ab c".
Proof. reflexivity. Qed.

Example contains_device :
  Text.contains "device" ("device" +:+ Text.nl) = true /\
  Text.contains "device" "unauthorized" = false.
Proof. split; reflexivity. Qed.

Example decode_rejects_stray_byte :
  Text.decode_utf8 (String (Ascii.ascii_of_N 255) EmptyString) = None.
Proof. reflexivity. Qed.

Example handler_classes :
  issubclass HTTPError Exception = true /\
  issubclass FileNotFoundError OSError = true /\
  issubclass KeyboardInterrupt Exception = false /\
  issubclass ServerNotRunningError TransportError = false.
Proof. repeat split; reflexivity. Qed.

(** ** The architecture resolver *)

(** [get_device_arch] returns the mapped form of the stripped output of
    the property query, whenever the query runs. *)
Lemma get_device_arch_resolves env h fs cp :
  env_run env h ["adb"; "shell"; "getprop"; "ro.product.cpu.abi"] false = inl cp ->
  outcome_of (get_device_arch env h fs) = Ret (resolve (Text.strip (stdout cp))).
Proof.
  intros Hrun.
  change (wp get_device_arch env h fs
            (fun o _ _ => o = Ret (resolve (Text.strip (stdout cp))))).
  wp_run; congruence.
Qed.

(** C2. The mapping step of [get_device_arch] sends each of the four
    supported ABI names to its documented tag, and every other string to
    itself. *)
Theorem resolve_table_and_fallback (arch : string) :
  resolve "arm64-v8a" = "android-arm64" /\
  resolve "armeabi-v7a" = "android-arm" /\
  resolve "x86" = "android-x86" /\
  resolve "x86_64" = "android-x86_64" /\
  (arch ∉ supported_abis -> resolve arch = arch).
Proof.
  repeat split; try (vm_compute; reflexivity).
  unfold supported_abis. rewrite !not_elem_of_cons.
  intros (? & ? & ? & ? & _).
  unfold resolve, dict_get, arch_map.
  by rewrite !lookup_insert_ne, lookup_singleton_ne.
Qed.

Lemma resolve_fallback_witness :
  ("riscv64" ∉ supported_abis) /\ resolve "riscv64" = "riscv64".
Proof.
  assert (H : "riscv64" ∉ supported_abis).
  { unfold supported_abis. rewrite !not_elem_of_cons.
    repeat split; try discriminate. apply not_elem_of_nil. }
  split; [exact H|].
  exact (proj2 (proj2 (proj2 (proj2 (resolve_table_and_fallback "riscv64")))) H).
Defined.

(** ** Property queries *)

(** C9, as the code has it. [_get_prop] fails soft on the exit status
    only: when the query ends with a non-zero exit status it returns
    "Unknown"; when it ends with status zero and its output is UTF-8, the
    text [text], it returns [text] stripped; when it ends with status zero
    and its output is not UTF-8, the error of the decoding goes to the
    caller. *)
Theorem get_prop_fails_soft (prop_name : string) env h fs cp :
  env_run env h ["adb"; "shell"; "getprop"; prop_name] false = inl cp ->
  (returncode cp <> 0 -> outcome_of (_get_prop prop_name env h fs) = Ret "Unknown") /\
  (returncode cp = 0 ->
   forall text, Text.decode_utf8 (stdout cp) = Some text ->
   outcome_of (_get_prop prop_name env h fs) = Ret (Text.strip text)) /\
  (returncode cp = 0 ->
   Text.decode_utf8 (stdout cp) = None ->
   exists e,
     outcome_of (_get_prop prop_name env h fs) = Raise e /\
     exn_class e = UnicodeDecodeError).
Proof.
  intros Hrun. split_and!.
  - intros Hrc.
    change (wp (_get_prop prop_name) env h fs (fun o _ _ => o = Ret "Unknown")).
    wp_run; simplify_eq; try done.
    all: by apply Z.eqb_eq in Heqb.
  - intros Hrc text Htext.
    change (wp (_get_prop prop_name) env h fs (fun o _ _ => o = Ret (Text.strip text))).
    wp_run; simplify_eq; try done.
    all: by rewrite Hrc in Heqb.
  - intros Hrc Hbytes.
    change (wp (_get_prop prop_name) env h fs (fun o _ _ =>
      exists e, o = Raise e /\ exn_class e = UnicodeDecodeError)).
    wp_run; simplify_eq; try (by eexists).
    all: try (rewrite Hrc in Heqb; discriminate).
    all: match goal with
         | H : isinstance (mkExn UnicodeDecodeError _) CalledProcessError = true |- _ =>
             vm_compute in H; discriminate
         end.
Qed.

Lemma get_prop_fails_soft_witness :
  outcome_of (_get_prop "ro.product.device" Sample.provisioned [] ∅) = Ret "Unknown" /\
  outcome_of (_get_prop "ro.product.manufacturer" Sample.provisioned [] ∅) = Ret "google".
Proof.
  split.
  - refine (proj1 (get_prop_fails_soft "ro.product.device" Sample.provisioned [] ∅
                     (mkCompleted 1 EmptyString EmptyString) _) _);
      [reflexivity | discriminate].
  - refine (proj1 (proj2 (get_prop_fails_soft "ro.product.manufacturer"
                     Sample.provisioned [] ∅
                     (mkCompleted 0 ("google" +:+ Text.nl) EmptyString) _)) _
                  ("google" +:+ Text.nl) _);
      reflexivity.
Defined.

(** C9, as the specification states it, fails: a query that ends with
    status zero need not make [_get_prop] return its stripped output, or
    return at all. *)
Lemma get_prop_success_without_result :
  env_run Scenario.garbled [] ["adb"; "shell"; "getprop"; "ro.product.device"] false
  = inl (mkCompleted 0 Scenario.stray_byte EmptyString) /\
  outcome_of (_get_prop "ro.product.device" Scenario.garbled [] ∅)
  = Raise (mkExn UnicodeDecodeError "invalid utf-8") /\
  outcome_of (_get_prop "ro.product.device" Scenario.garbled [] ∅)
  <> Ret (Text.strip Scenario.stray_byte).
Proof.
  assert (H : outcome_of (_get_prop "ro.product.device" Scenario.garbled [] ∅)
              = Raise (mkExn UnicodeDecodeError "invalid utf-8"))
    by (vm_compute; reflexivity).
  split; [reflexivity|]. split; [exact H|]. rewrite H. discriminate.
Qed.

(** Output that is not UTF-8 is not text: the decoding raises, and the
    handler for [CalledProcessError] does not stop it. *)
Example get_prop_undecodable :
  let garbled := Sample.world
    (fun _ => Sample.completed 0 (String (Ascii.ascii_of_N 255) EmptyString) EmptyString)
    (inr (mkExn ConnectionError "offline")) Sample.runtime in
  outcome_of (_get_prop "ro.product.device" garbled [] ∅)
  = Raise (mkExn UnicodeDecodeError "invalid utf-8").
Proof. vm_compute; reflexivity. Qed.

(** ** Starting the server *)

Lemma bridge_completes state abi ls_status argv :
  exists cp, Sample.bridge state abi ls_status argv = inl cp.
Proof. unfold Sample.bridge, Sample.completed. repeat case_bool_decide; eauto. Defined.

(** C8. [start_frida] returns normally, having reached its last line,
    whatever the exit status and the output of the kill, chmod and launch
    commands (and of the push): no result is checked. *)
Theorem start_frida_ignores_command_results (filename : option string) env h fs :
  every_command_completes env ->
  outcome_of (start_frida filename env h fs) = Ret tt /\
  last (emitted (start_frida filename env h fs))
  = Some (EvPrint light_green server_running_message).
Proof.
  intros Hrun.
  change (wp (start_frida filename) env h fs
            (fun o evs _ => o = Ret tt /\
               last evs = Some (EvPrint light_green server_running_message))).
  wp_run; try done.
  all: match goal with
       | H : env_run _ ?h' ?argv ?shell = inr _ |- _ =>
           destruct (Hrun h' argv shell); congruence
       end.
Qed.

Lemma start_frida_ignores_command_results_witness :
  outcome_of (start_frida None Sample.provisioned [] ∅) = Ret tt /\
  last (emitted (start_frida None Sample.provisioned [] ∅))
  = Some (EvPrint light_green server_running_message).
Proof.
  apply (start_frida_ignores_command_results None Sample.provisioned [] ∅).
  intros h argv shell. exact (bridge_completes "device" "arm64-v8a" 0 argv).
Defined.

(** ** The instrumentation session *)

(** C5. When the payload file does not exist, [_load_js_code] reports it
    and exits with status 1, so [hook_proxygen_SSLVerification] ends there:
    nothing but the report is issued, no call of the instrumentation
    runtime among it, and the files are untouched. *)
Theorem missing_payload_fails_before_device_calls (path : string) env h fs :
  (fs !! path = None ->
   outcome_of (_load_js_code path env h fs) = Exit 1 /\
   emitted (_load_js_code path env h fs) = [EvPrint light_red (not_found_message path)]) /\
  (fs !! script_path = None ->
   outcome_of (hook_proxygen_SSLVerification env h fs) = Exit 1 /\
   emitted (hook_proxygen_SSLVerification env h fs)
   = [EvPrint light_red (not_found_message script_path)] /\
   frida_calls (emitted (hook_proxygen_SSLVerification env h fs)) = [] /\
   files_after (hook_proxygen_SSLVerification env h fs) = fs).
Proof.
  split; intros Hmissing.
  - change (wp (_load_js_code path) env h fs
              (fun o evs _ => o = Exit 1 /\
                 evs = [EvPrint light_red (not_found_message path)])).
    wp_run; try done.
    all: rewrite Hmissing in *; by case_bool_decide.
  - change (wp hook_proxygen_SSLVerification env h fs
              (fun o evs fs' => o = Exit 1 /\
                 evs = [EvPrint light_red (not_found_message script_path)] /\
                 frida_calls evs = [] /\ fs' = fs)).
    unfold hook_proxygen_SSLVerification. apply wp_bind.
    wp_run; try done.
    all: rewrite Hmissing in *; by case_bool_decide.
Qed.

Lemma missing_payload_witness :
  outcome_of (hook_proxygen_SSLVerification Sample.provisioned [] ∅) = Exit 1 /\
  frida_calls (emitted (hook_proxygen_SSLVerification Sample.provisioned [] ∅)) = [].
Proof.
  assert (Hmissing : (∅ : files) !! script_path = None) by (vm_compute; reflexivity).
  destruct (proj2 (missing_payload_fails_before_device_calls
                     script_path Sample.provisioned [] ∅) Hmissing)
    as (Hexit & _ & Hcalls & _).
  split; [exact Hexit | exact Hcalls].
Defined.

(** The two diagnostics differ whatever the text of the exception. *)
Lemma unreachable_is_not_generic e : unreachable_message <> generic_message e.
Proof. unfold unreachable_message, generic_message. cbv [String.append]. discriminate. Qed.

(** What [hook_proxygen_SSLVerification] does when a call of the runtime
    raises [e]. *)
Lemma hook_on_runtime_failure env h fs e :
  runtime_failure (emitted (hook_proxygen_SSLVerification env h fs)) = Some e ->
  isinstance e Exception = true ->
  outcome_of (hook_proxygen_SSLVerification env h fs) = Exit 1 /\
  last (emitted (hook_proxygen_SSLVerification env h fs))
  = Some (EvPrint light_red
            (if isinstance e TransportError then unreachable_message
             else generic_message e)).
Proof.
  change (wp hook_proxygen_SSLVerification env h fs
            (fun o evs _ =>
               runtime_failure evs = Some e -> isinstance e Exception = true ->
               o = Exit 1 /\
               last evs = Some (EvPrint light_red
                 (if isinstance e TransportError then unreachable_message
                  else generic_message e)))).
  wp_run; cbn [runtime_failure]; intros Hfail Hexc; simplify_eq; try done.
  all: try congruence.
  all: match goal with H : isinstance _ TransportError = _ |- _ => rewrite H end; done.
Qed.

(** C6, as the code has it. When a call of the instrumentation runtime
    fails, the session ends with exit status 1 after one diagnostic: the
    "server not reachable" message for an exception of the class
    [TransportError], the generic message for any other exception, those
    of a refused connection and of a timeout among them; and the two
    messages are never the same. *)
Theorem session_failures_are_told_apart env h fs e :
  runtime_failure (emitted (hook_proxygen_SSLVerification env h fs)) = Some e ->
  isinstance e Exception = true ->
  outcome_of (hook_proxygen_SSLVerification env h fs) = Exit 1 /\
  (isinstance e TransportError = true ->
   last (emitted (hook_proxygen_SSLVerification env h fs))
   = Some (EvPrint light_red unreachable_message)) /\
  (isinstance e TransportError = false ->
   last (emitted (hook_proxygen_SSLVerification env h fs))
   = Some (EvPrint light_red (generic_message e))) /\
  (forall e', unreachable_message <> generic_message e').
Proof.
  intros Hfail Hexc.
  destruct (hook_on_runtime_failure env h fs e Hfail Hexc) as [Hexit Hlast].
  split; [exact Hexit|]. rewrite Hlast.
  repeat split; try (intros ->; reflexivity).
  apply unreachable_is_not_generic.
Qed.

Lemma session_failures_witness :
  let timeout := mkExn TransportError "timeout was reached" in
  let refused := mkExn ServerNotRunningError "unable to connect to remote frida-server" in
  last (emitted (hook_proxygen_SSLVerification
                   (Sample.failing_spawn timeout) [] Sample.with_payload))
  = Some (EvPrint light_red unreachable_message) /\
  last (emitted (hook_proxygen_SSLVerification
                   (Sample.failing_spawn refused) [] Sample.with_payload))
  = Some (EvPrint light_red (generic_message refused)).
Proof.
  intros timeout refused. split.
  - refine (proj1 (proj2 (session_failures_are_told_apart
             (Sample.failing_spawn timeout) [] Sample.with_payload timeout _ _)) _);
      vm_compute; reflexivity.
  - refine (proj1 (proj2 (proj2 (session_failures_are_told_apart
             (Sample.failing_spawn refused) [] Sample.with_payload refused _ _))) _);
      vm_compute; reflexivity.
Defined.

(** C6, as the specification states it, fails: a refused connection (the
    server is not running when the target is spawned) and a timeout (no
    device appears within the five seconds) are not of the class
    [TransportError], and both end in the generic message, not in the
    "server not reachable" one. *)
Lemma refused_and_timed_out_get_generic_report :
  let refused :=
    mkExn ServerNotRunningError "unable to connect to remote frida-server: closed" in
  let timed_out :=
    mkExn TimedOutError "timed out while waiting for device to appear" in
  let refused_run :=
    hook_proxygen_SSLVerification (Sample.failing_spawn refused) [] Sample.with_payload in
  let timed_out_run :=
    hook_proxygen_SSLVerification (Scenario.failing_connect timed_out) []
      Sample.with_payload in
  (runtime_failure (emitted refused_run) = Some refused /\
   last (emitted refused_run) = Some (EvPrint light_red (generic_message refused)) /\
   last (emitted refused_run) <> Some (EvPrint light_red unreachable_message)) /\
  (runtime_failure (emitted timed_out_run) = Some timed_out /\
   last (emitted timed_out_run) = Some (EvPrint light_red (generic_message timed_out)) /\
   last (emitted timed_out_run) <> Some (EvPrint light_red unreachable_message)).
Proof.
  intros refused timed_out refused_run timed_out_run.
  assert (Hr : last (emitted refused_run)
               = Some (EvPrint light_red (generic_message refused)))
    by (vm_compute; reflexivity).
  assert (Ht : last (emitted timed_out_run)
               = Some (EvPrint light_red (generic_message timed_out)))
    by (vm_compute; reflexivity).
  split; (split; [vm_compute; reflexivity|]).
  - split; [exact Hr|]. rewrite Hr. intros H.
    apply (unreachable_is_not_generic refused). congruence.
  - split; [exact Ht|]. rewrite Ht. intros H.
    apply (unreachable_is_not_generic timed_out). congruence.
Qed.

(** C1, as the code has it. The runtime calls are issued in the fixed
    order connect, spawn, attach, resume, create script, register the
    message handler, load: every run issues an initial part of that
    sequence, a run that completes issues all of it, and the target is
    resumed before the script is created. *)
Theorem runtime_calls_follow_issued_order env h fs :
  frida_calls (emitted (hook_proxygen_SSLVerification env h fs)) `prefix_of` issued_order /\
  resumed_before_script []
    (frida_calls (emitted (hook_proxygen_SSLVerification env h fs))) = true /\
  (outcome_of (hook_proxygen_SSLVerification env h fs) = Ret tt ->
   frida_calls (emitted (hook_proxygen_SSLVerification env h fs)) = issued_order).
Proof.
  change (wp hook_proxygen_SSLVerification env h fs
            (fun o evs _ =>
               frida_calls evs `prefix_of` issued_order /\
               resumed_before_script [] (frida_calls evs) = true /\
               (o = Ret tt -> frida_calls evs = issued_order))).
  wp_run; cbn [frida_calls kind_of];
    (split; [by eexists | split; [vm_compute; reflexivity | done]]).
Qed.

Lemma runtime_calls_witness :
  frida_calls (emitted (hook_proxygen_SSLVerification
                          Sample.provisioned [] Sample.with_payload))
  = issued_order.
Proof.
  apply (runtime_calls_follow_issued_order Sample.provisioned [] Sample.with_payload).
  vm_compute; reflexivity.
Defined.

(** C1, as the specification states it, fails: in a complete run the
    calls are not in the listed order, and the resume comes before the
    script has been created or loaded. *)
Lemma resume_precedes_script_load :
  let calls := frida_calls (emitted (hook_proxygen_SSLVerification
                                       Sample.provisioned [] Sample.with_payload)) in
  KResume ∈ calls /\
  calls <> listed_order /\
  loaded_before_resume [] calls = false.
Proof.
  assert (Hcalls : frida_calls (emitted (hook_proxygen_SSLVerification
                     Sample.provisioned [] Sample.with_payload)) = issued_order)
    by (vm_compute; reflexivity).
  cbv zeta. rewrite Hcalls. unfold issued_order, listed_order.
  split; [set_solver|]. split; [discriminate | vm_compute; reflexivity].
Qed.

(** ** Footprints of the pipeline *)

Lemma print_is_setup color text : respects setup_event true (print_colored color text).
Proof. solve_respects. Qed.

Lemma check_adb_is_setup : respects setup_event true check_adb_availability.
Proof. solve_respects. Qed.

Lemma check_device_is_setup : respects setup_event true check_device_connection.
Proof. solve_respects. Qed.

Lemma launch_scrcpy_is_setup : respects setup_event true launch_scrcpy.
Proof. solve_respects. Qed.

Lemma get_device_arch_is_setup : respects setup_event true get_device_arch.
Proof. solve_respects. Qed.

Lemma start_frida_none_is_setup : respects setup_event true (start_frida None).
Proof. solve_respects. Qed.

Lemma start_frida_is_deploy filename : respects deploy_event true (start_frida filename).
Proof. solve_respects. Qed.

Lemma download_is_download version arch :
  respects download_event false (download_frida_server version arch).
Proof. solve_respects. Qed.

(** Facts about lists of events. *)

Lemma existsb_none (P X : Event -> bool) evs :
  (forall ev, P ev = true -> X ev = false) ->
  forallb P evs = true -> existsb X evs = false.
Proof.
  intros HPX. induction evs as [|ev evs IH]; cbn; [done|].
  intros [Hev Hevs]%andb_true_iff. by rewrite (HPX ev Hev), IH.
Qed.

Lemma forallb_weaken (P P' : Event -> bool) evs :
  (forall ev, P ev = true -> P' ev = true) ->
  forallb P evs = true -> forallb P' evs = true.
Proof. rewrite !forallb_forall. auto. Qed.

Lemma opened_for_writing_app evs evs' :
  opened_for_writing (evs ++ evs') = opened_for_writing evs ++ opened_for_writing evs'.
Proof.
  induction evs as [|[| | | | |[] []| |] evs IH]; cbn; by rewrite ?IH.
Qed.

Lemma opened_for_writing_none (P : Event -> bool) evs :
  (forall ev, P ev = true -> is_file_request ev = false) ->
  forallb P evs = true -> opened_for_writing evs = [].
Proof.
  intros HP. induction evs as [|ev evs IH]; cbn; [done|].
  intros [Hev Hevs]%andb_true_iff. specialize (HP ev Hev).
  destruct ev as [| | | | |[] []| |]; try discriminate; auto.
Qed.

Lemma not_probe_not_found ev : negb (is_probe ev) = true -> found_on_device ev = false.
Proof. unfold found_on_device. by destruct (is_probe ev). Qed.

Lemma not_probe_not_missing ev : negb (is_probe ev) = true -> missing_on_device ev = false.
Proof. unfold missing_on_device. by destruct (is_probe ev). Qed.

Lemma setup_not_probe ev : setup_event ev = true -> negb (is_probe ev) = true.
Proof. unfold setup_event. rewrite !andb_true_iff. tauto. Qed.

Lemma deploy_not_probe ev : deploy_event ev = true -> negb (is_probe ev) = true.
Proof. unfold deploy_event. rewrite !andb_true_iff. tauto. Qed.

Lemma download_not_probe ev : download_event ev = true -> negb (is_probe ev) = true.
Proof. unfold download_event. rewrite !andb_true_iff. tauto. Qed.

Lemma setup_no_file ev : setup_event ev = true -> is_file_request ev = false.
Proof. unfold setup_event. rewrite !andb_true_iff, !negb_true_iff. tauto. Qed.

Lemma deploy_no_file ev : deploy_event ev = true -> is_file_request ev = false.
Proof. unfold deploy_event. rewrite !andb_true_iff, !negb_true_iff. tauto. Qed.

Lemma setup_no_transfer ev : setup_event ev = true -> no_transfer ev = true.
Proof.
  unfold setup_event, no_transfer. destruct ev as [| | | | |[]| |]; cbn; try done.
  all: rewrite ?andb_true_iff, ?andb_true_r; tauto.
Qed.

(** What a part of the pipeline with the footprint [setup_event] tells
    about its events. *)
Lemma setup_facts evs :
  forallb setup_event evs = true ->
  existsb found_on_device evs = false /\
  existsb missing_on_device evs = false /\
  forallb no_transfer evs = true /\
  opened_for_writing evs = [].
Proof.
  intros H. split_and!.
  - eapply existsb_none, H. intros ev ?%setup_not_probe. by apply not_probe_not_found.
  - eapply existsb_none, H. intros ev ?%setup_not_probe. by apply not_probe_not_missing.
  - eapply forallb_weaken, H. apply setup_no_transfer.
  - eapply opened_for_writing_none, H. apply setup_no_file.
Qed.

Lemma deploy_facts evs :
  forallb deploy_event evs = true ->
  existsb found_on_device evs = false /\
  existsb missing_on_device evs = false /\
  opened_for_writing evs = [].
Proof.
  intros H. split_and!.
  - eapply existsb_none, H. intros ev ?%deploy_not_probe. by apply not_probe_not_found.
  - eapply existsb_none, H. intros ev ?%deploy_not_probe. by apply not_probe_not_missing.
  - eapply opened_for_writing_none, H. apply deploy_no_file.
Qed.

(** The probe of the remote binary, by its outcome. *)
Lemma wp_check_existing env h fs (Q : outcome bool -> list Event -> files -> Prop) :
  (forall o probe rest,
     no_transfer probe = true ->
     (forall evs, opened_for_writing (probe :: evs) = opened_for_writing evs) ->
     forallb setup_event rest = true ->
     match o with
     | Ret true => found_on_device probe = true /\ missing_on_device probe = false
     | _ => found_on_device probe = false /\ missing_on_device probe = true
     end ->
     Q o (probe :: rest) fs) ->
  wp check_existing_frida_server env h fs Q.
Proof.
  intros HQ. wp_run; apply HQ; try done; try (vm_compute; reflexivity).
  all: unfold found_on_device, missing_on_device; cbn; rewrite ?Heqb; done.
Qed.

Ltac rewrite_facts :=
  repeat match goal with
         | H : existsb _ _ = _ |- _ => rewrite H
         | H : forallb _ _ = _ |- _ => rewrite H
         | H : opened_for_writing _ = _ |- _ => rewrite H
         | H : found_on_device _ = _ |- _ => rewrite H
         | H : missing_on_device _ = _ |- _ => rewrite H
         | H : no_transfer _ = _ |- _ => rewrite H
         | H : no_device_reported _ = _ |- _ => rewrite H
         end.

(** The property of the whole run, from the facts about its parts. *)
Ltac trace_goal :=
  repeat (progress (unfold after; cbn beta iota));
  repeat (progress (rewrite ?existsb_app, ?forallb_app, ?opened_for_writing_app;
                    cbn [existsb forallb]));
  rewrite_facts; cbn [orb andb app].

(** Through one part of footprint [setup_event], proved by [lem]. *)
Ltac setup_step lem :=
  eapply wp_bind_respects; [apply lem|];
  let o := fresh "o" in
  let evs := fresh "evs" in
  let fs1 := fresh "fs" in
  let Hev := fresh "Hev" in
  let Hfs := fresh "Hfs" in
  intros o evs fs1 Hev Hfs; specialize (Hfs eq_refl); subst fs1;
  destruct (setup_facts _ Hev) as (? & ? & ? & ?);
  destruct o; [ | trace_goal; try done .. ].

Lemma no_transfer_split evs :
  forallb no_transfer evs = true ->
  none_of is_http_get evs = true /\
  none_of is_local_write evs = true /\
  none_of is_push evs = true.
Proof.
  unfold none_of, no_transfer. induction evs as [|ev evs IH]; cbn; [done|].
  rewrite !andb_true_iff. intros [[[? ?] ?] Hevs]. destruct (IH Hevs) as (? & ? & ?).
  auto.
Qed.

(** ** Ensuring the server artifact *)

Lemma existing_server_footprint env h fs :
  existsb found_on_device (emitted (start_frida_server env h fs)) = true ->
  forallb no_transfer (emitted (start_frida_server env h fs)) = true /\
  files_after (start_frida_server env h fs) = fs.
Proof.
  change (wp start_frida_server env h fs (fun o evs fs' =>
     existsb found_on_device evs = true -> forallb no_transfer evs = true /\ fs' = fs)).
  unfold start_frida_server.
  setup_step print_is_setup.
  setup_step check_adb_is_setup.
  setup_step check_device_is_setup.
  setup_step launch_scrcpy_is_setup.
  setup_step get_device_arch_is_setup.
  setup_step print_is_setup.
  apply wp_bind, wp_check_existing.
  intros o probe rest Hquiet Hopened Hrest Ho.
  destruct (setup_facts _ Hrest) as (? & ? & ? & ?).
  destruct o as [[|]| |]; destruct Ho; [ | | trace_goal; done ..].
  - eapply wp_respects; [apply start_frida_none_is_setup|].
    intros o evs' fs' Hev' Hfs'. rewrite (Hfs' eq_refl).
    destruct (setup_facts _ Hev') as (? & ? & ? & ?).
    trace_goal. done.
  - eapply wp_respects with (P := fun ev => negb (is_probe ev)) (keep := false);
      [solve_respects|].
    intros o evs' fs' Hev' _.
    pose proof (existsb_none _ _ _ not_probe_not_found Hev').
    trace_goal. done.
Qed.

(** C3. When the probe finds the server binary on the device,
    [start_frida_server] issues no HTTP request, creates and writes no
    local file and pushes nothing (so [download_frida_server], which
    starts with a request, is not run and [start_frida] gets no file
    name), and the local files are as they were. *)
Theorem existing_server_needs_no_transfer env h fs :
  existsb found_on_device (emitted (start_frida_server env h fs)) = true ->
  none_of is_http_get (emitted (start_frida_server env h fs)) = true /\
  none_of is_local_write (emitted (start_frida_server env h fs)) = true /\
  none_of is_push (emitted (start_frida_server env h fs)) = true /\
  files_after (start_frida_server env h fs) = fs.
Proof.
  intros Hfound.
  destruct (existing_server_footprint env h fs Hfound) as [Hquiet Hfs].
  destruct (no_transfer_split _ Hquiet) as (? & ? & ?). auto.
Qed.

Lemma existing_server_witness :
  none_of is_http_get (emitted (start_frida_server Sample.provisioned [] ∅)) = true /\
  none_of is_local_write (emitted (start_frida_server Sample.provisioned [] ∅)) = true /\
  none_of is_push (emitted (start_frida_server Sample.provisioned [] ∅)) = true /\
  files_after (start_frida_server Sample.provisioned [] ∅) = ∅.
Proof.
  apply (existing_server_needs_no_transfer Sample.provisioned [] ∅).
  vm_compute; reflexivity.
Defined.

Lemma artifact_name_not_server v a : artifact_name v a <> "frida-server".
Proof. unfold artifact_name. cbv [String.append]. discriminate. Qed.

Lemma compressed_name_not_server v a : artifact_name v a +:+ ".xz" <> "frida-server".
Proof. unfold artifact_name. cbv [String.append]. discriminate. Qed.

(** What a download that returns has done. *)
Lemma download_outcome version arch env h fs name :
  outcome_of (download_frida_server version arch env h fs) = Ret name ->
  exists content data,
    name = "frida-server" /\
    env_lzma_decompress env content = Some data /\
    http_urls (emitted (download_frida_server version arch env h fs))
    = [download_url version arch] /\
    opened_for_writing (emitted (download_frida_server version arch env h fs))
    = [compressed_name version arch; "frida-server"] /\
    data_writes (emitted (download_frida_server version arch env h fs))
    = [(compressed_name version arch, content); ("frida-server", data)] /\
    files_after (download_frida_server version arch env h fs)
      !! compressed_name version arch = None /\
    files_after (download_frida_server version arch env h fs) !! "frida-server" = Some data.
Proof.
  change (wp (download_frida_server version arch) env h fs (fun o evs fs' =>
    o = Ret name ->
    exists content data,
      name = "frida-server" /\
      env_lzma_decompress env content = Some data /\
      http_urls evs = [download_url version arch] /\
      opened_for_writing evs = [compressed_name version arch; "frida-server"] /\
      data_writes evs = [(compressed_name version arch, content); ("frida-server", data)] /\
      fs' !! compressed_name version arch = None /\
      fs' !! "frida-server" = Some data)).
  pose proof (artifact_name_not_server version arch).
  pose proof (compressed_name_not_server version arch).
  unfold download_url, compressed_name.
  wp_run; intros Hret; simplify_eq.
  all: rewrite ?lookup_insert_eq in *; cbn [default from_option id String.append] in *.
  all: rewrite lookup_insert_ne, lookup_insert_eq in * by done;
       cbn [default from_option id] in *.
  all: eexists _, _; split_and!; try done.
  all: rewrite ?lookup_delete, ?lookup_insert; repeat case_decide; simplify_eq; done.
Qed.


(** C4. A download that returns has made exactly one HTTP request, for
    the compressed artifact; has created exactly two files, the compressed
    one and "frida-server"; has written one body to the first and the
    decompression of that body to the second; returns "frida-server"; and
    has removed the compressed file. *)
Theorem download_fetches_once_and_cleans_up version arch env h fs name :
  outcome_of (download_frida_server version arch env h fs) = Ret name ->
  name = "frida-server" /\
  http_urls (emitted (download_frida_server version arch env h fs))
  = [download_url version arch] /\
  opened_for_writing (emitted (download_frida_server version arch env h fs))
  = [compressed_name version arch; "frida-server"] /\
  (exists content data,
     env_lzma_decompress env content = Some data /\
     data_writes (emitted (download_frida_server version arch env h fs))
     = [(compressed_name version arch, content); ("frida-server", data)] /\
     files_after (download_frida_server version arch env h fs) !! "frida-server"
     = Some data) /\
  files_after (download_frida_server version arch env h fs)
    !! compressed_name version arch = None.
Proof.
  intros Hret.
  destruct (download_outcome version arch env h fs name Hret)
    as (content & data & ? & ? & ? & ? & ? & ? & ?).
  split_and!; try done. by exists content, data.
Qed.

Lemma download_witness :
  let r := download_frida_server frida_version "android-arm64" Sample.fresh [] ∅ in
  http_urls (emitted r) = [download_url frida_version "android-arm64"] /\
  opened_for_writing (emitted r)
  = [compressed_name frida_version "android-arm64"; "frida-server"] /\
  files_after r !! compressed_name frida_version "android-arm64" = None.
Proof.
  destruct (download_fetches_once_and_cleans_up
              frida_version "android-arm64" Sample.fresh [] ∅ "frida-server")
    as (_ & Hurls & Hopened & _ & Hgone); [vm_compute; reflexivity|].
  cbv zeta. auto.
Defined.

Lemma wp_download version arch env h fs (Q : outcome string -> list Event -> files -> Prop) :
  (forall o evs fs',
     existsb found_on_device evs = false ->
     existsb missing_on_device evs = false ->
     match o with
     | Ret name =>
         name = "frida-server" /\
         opened_for_writing evs = [compressed_name version arch; "frida-server"] /\
         fs' !! compressed_name version arch = None /\
         is_Some (fs' !! "frida-server")
     | _ => True
     end ->
     Q o evs fs') ->
  wp (download_frida_server version arch) env h fs Q.
Proof.
  intros HQ. unfold wp.
  destruct (download_is_download version arch env h fs) as [Hev _].
  apply HQ.
  - eapply existsb_none, Hev. intros ev ?%download_not_probe. by apply not_probe_not_found.
  - eapply existsb_none, Hev. intros ev ?%download_not_probe. by apply not_probe_not_missing.
  - destruct (outcome_of _) as [name| |] eqn:Hout; [|done..].
    destruct (download_outcome _ _ _ _ _ _ Hout)
      as (content & data & -> & _ & _ & Hopened & _ & Hxz & Hsrv).
    rewrite Hsrv. eauto.
Qed.

Lemma last_app_some {A} (l1 l2 : list A) x :
  last l2 = Some x -> last (l1 ++ l2) = Some x.
Proof. intros H. by rewrite last_app, H. Qed.

Lemma last_cons_some {A} (x0 : A) l x : last l = Some x -> last (x0 :: l) = Some x.
Proof. intros H. by rewrite last_cons, H. Qed.

(** C10. A run of [start_frida_server] that takes the download path and
    returns has created two local files, the compressed artifact and
    "frida-server"; its last act, after [start_frida], is to remove
    "frida-server"; and it leaves neither file behind. *)
Theorem download_path_leaves_no_artifacts env h fs :
  outcome_of (start_frida_server env h fs) = Ret tt ->
  existsb missing_on_device (emitted (start_frida_server env h fs)) = true ->
  exists arch,
    opened_for_writing (emitted (start_frida_server env h fs))
    = [compressed_name frida_version arch; "frida-server"] /\
    last (emitted (start_frida_server env h fs))
    = Some (EvFile (Remove "frida-server") None) /\
    files_after (start_frida_server env h fs) !! compressed_name frida_version arch = None /\
    files_after (start_frida_server env h fs) !! "frida-server" = None.
Proof.
  change (wp start_frida_server env h fs (fun o evs fs' =>
    o = Ret tt -> existsb missing_on_device evs = true ->
    exists arch,
      opened_for_writing evs = [compressed_name frida_version arch; "frida-server"] /\
      last evs = Some (EvFile (Remove "frida-server") None) /\
      fs' !! compressed_name frida_version arch = None /\
      fs' !! "frida-server" = None)).
  unfold start_frida_server.
  setup_step print_is_setup.
  setup_step check_adb_is_setup.
  setup_step check_device_is_setup.
  setup_step launch_scrcpy_is_setup.
  setup_step get_device_arch_is_setup.
  setup_step print_is_setup.
  apply wp_bind, wp_check_existing.
  intros o probe rest Hquiet Hopened Hrest Ho.
  destruct (setup_facts _ Hrest) as (? & ? & ? & ?).
  destruct o as [[|]| |]; destruct Ho; [ | | trace_goal; done ..].
  - eapply wp_respects; [apply start_frida_none_is_setup|].
    intros o evs' fs' Hev' Hfs'.
    destruct (setup_facts _ Hev') as (? & ? & ? & ?).
    trace_goal. done.
  - apply wp_bind, wp_download.
    intros o evs' fs' Hfound Hmissing Ho.
    destruct o as [name| |]; [ | trace_goal; done ..].
    destruct Ho as (-> & Hopened' & Hxz & Hsrv).
    eapply wp_bind_respects; [apply start_frida_is_deploy|].
    intros o evs'' fs'' Hev'' Hfs''. specialize (Hfs'' eq_refl). subst fs''.
    destruct (deploy_facts _ Hev'') as (? & ? & ?).
    destruct o; [ | trace_goal; done ..].
    pose proof (compressed_name_not_server frida_version a3).
    wp_run; trace_goal; rewrite Hopened; trace_goal; intros Hret _.
    + destruct (env_file_failure _ _ _); [done|].
      exists a3. rewrite lookup_delete_ne, lookup_delete_eq by done.
      split_and!; try done.
      repeat first [reflexivity | apply last_app_some | apply last_cons_some].
    + by destruct Hsrv.
    + by rewrite bool_decide_eq_false in Heqb.
Qed.

Lemma download_path_witness :
  exists arch,
    opened_for_writing (emitted (start_frida_server Sample.fresh [] ∅))
    = [compressed_name frida_version arch; "frida-server"] /\
    last (emitted (start_frida_server Sample.fresh [] ∅))
    = Some (EvFile (Remove "frida-server") None) /\
    files_after (start_frida_server Sample.fresh [] ∅)
      !! compressed_name frida_version arch = None /\
    files_after (start_frida_server Sample.fresh [] ∅) !! "frida-server" = None.
Proof.
  apply (download_path_leaves_no_artifacts Sample.fresh [] ∅);
    vm_compute; reflexivity.
Defined.

(** ** The connectivity gate *)

Lemma past_check_not_reported ev : past_check_event ev = true -> no_device_reported ev = false.
Proof. unfold past_check_event, no_device_reported. by destruct (is_get_state ev). Qed.

Lemma before_check_facts evs :
  forallb before_check_event evs = true ->
  existsb no_device_reported evs = false /\ forallb setup_event evs = true.
Proof.
  intros H. split.
  - eapply existsb_none, H. unfold before_check_event.
    intros ev [_ ?]%andb_true_iff. by apply past_check_not_reported.
  - eapply forallb_weaken, H. unfold before_check_event.
    by intros ev [? _]%andb_true_iff.
Qed.

Ltac before_check_step :=
  eapply wp_bind_respects with (P := before_check_event) (keep := true);
  [solve_respects|];
  let o := fresh "o" in
  let evs := fresh "evs" in
  let fs1 := fresh "fs" in
  let Hev := fresh "Hev" in
  let Hfs := fresh "Hfs" in
  intros o evs fs1 Hev Hfs; specialize (Hfs eq_refl); subst fs1;
  destruct (before_check_facts _ Hev) as [? ?];
  destruct o; [ | trace_goal; try done .. ].

Ltac past_check_step :=
  eapply wp_respects with (P := past_check_event) (keep := false);
  [solve_respects|];
  let o := fresh "o" in
  let evs := fresh "evs" in
  let Hev := fresh "Hev" in
  intros o evs ? Hev _;
  pose proof (existsb_none _ _ _ past_check_not_reported Hev);
  destruct o; [ | trace_goal; try done .. ].

(** The run of [main] when the connectivity check reports no device. *)
Lemma no_device_run env h fs :
  existsb no_device_reported (emitted (main env h fs)) = true ->
  outcome_of (main env h fs) = Exit 1 /\
  (exists before cp,
     emitted (main env h fs)
     = before ++ [EvRun ["adb"; "get-state"] false (inl cp);
                  EvPrint light_red no_device_message]) /\
  forallb setup_event (emitted (main env h fs)) = true /\
  files_after (main env h fs) = fs.
Proof.
  change (wp main env h fs (fun o evs fs' =>
    existsb no_device_reported evs = true ->
    o = Exit 1 /\
    (exists before cp,
       evs = before ++ [EvRun ["adb"; "get-state"] false (inl cp);
                        EvPrint light_red no_device_message]) /\
    forallb setup_event evs = true /\
    fs' = fs)).
  unfold main.
  before_check_step.
  apply wp_bind. unfold start_frida_server.
  before_check_step.
  before_check_step.
  apply wp_bind. unfold check_device_connection.
  apply wp_bind. unfold subprocess_run. apply wp_request. cbn [fst snd].
  destruct (env_run _ _ _ _) as [cp|e] eqn:Hrun; cbn [of_reply].
  2: { trace_goal. by cbn. }
  apply wp_bind.
  assert (Hgs : no_device_reported (EvRun ["adb"; "get-state"] false (inl cp))
                = negb (Text.contains "device" (stdout cp))) by reflexivity.
  destruct (negb (Text.contains "device" (stdout cp))) eqn:Hdevice.
  - wp_run. intros _. split; [done|]. split.
    + exists (evs ++ evs0 ++ evs1), cp. by rewrite <- !app_assoc.
    + trace_goal. done.
  - apply wp_ret. cbn beta iota.
    past_check_step. unfold after; cbn beta iota; cbn [app rev_append].
    past_check_step. unfold after; cbn beta iota; cbn [app rev_append].
    past_check_step. trace_goal. done.
Qed.

Lemma setup_event_split evs :
  forallb setup_event evs = true ->
  none_of is_http_get evs = true /\
  none_of is_file_request evs = true /\
  none_of is_push evs = true /\
  none_of is_frida evs = true.
Proof.
  unfold none_of, setup_event. induction evs as [|ev evs IH]; cbn; [done|].
  rewrite !andb_true_iff. intros [[[[[? ?] ?] ?] ?] Hevs].
  destruct (IH Hevs) as (? & ? & ? & ?). auto.
Qed.

(** C7. When the connectivity check reports no device, the run of the
    whole script ends with exit status 1, the check and its report being
    the last two events; no HTTP request, no request to the local files, no
    push and no call of the instrumentation runtime is issued in that run,
    and the local files are as they were. *)
Theorem no_device_aborts_pipeline env h fs :
  existsb no_device_reported (emitted (main env h fs)) = true ->
  outcome_of (main env h fs) = Exit 1 /\
  (exists before cp,
     emitted (main env h fs)
     = before ++ [EvRun ["adb"; "get-state"] false (inl cp);
                  EvPrint light_red no_device_message]) /\
  none_of is_http_get (emitted (main env h fs)) = true /\
  none_of is_file_request (emitted (main env h fs)) = true /\
  none_of is_push (emitted (main env h fs)) = true /\
  none_of is_frida (emitted (main env h fs)) = true /\
  files_after (main env h fs) = fs.
Proof.
  intros Hcheck.
  destruct (no_device_run env h fs Hcheck) as (Hexit & Hlast & Hquiet & Hfs).
  destruct (setup_event_split _ Hquiet) as (? & ? & ? & ?).
  auto 10.
Qed.

Lemma no_device_witness :
  outcome_of (main Sample.unplugged [] Sample.with_payload) = Exit 1 /\
  none_of is_http_get (emitted (main Sample.unplugged [] Sample.with_payload)) = true /\
  none_of is_push (emitted (main Sample.unplugged [] Sample.with_payload)) = true /\
  none_of is_frida (emitted (main Sample.unplugged [] Sample.with_payload)) = true.
Proof.
  destruct (no_device_aborts_pipeline Sample.unplugged [] Sample.with_payload)
    as (Hexit & _ & Hhttp & _ & Hpush & Hfrida & _); [vm_compute; reflexivity|].
  auto.
Defined.

(** * Further properties of the pipeline *)

(** ** The checks of the debug bridge *)

(** X1. [check_adb_availability] looks only at whether the command could
    be started: it returns [True] for every exit status and output of
    [adb version], exits with status 1 after its report when starting it
    raises [FileNotFoundError], and lets any other exception through. *)
Theorem check_adb_availability_outcome env h fs :
  match env_run env h ["adb"; "version"] false with
  | inl _ => outcome_of (check_adb_availability env h fs) = Ret true
  | inr e =>
      if isinstance e FileNotFoundError
      then outcome_of (check_adb_availability env h fs) = Exit 1 /\
           last (emitted (check_adb_availability env h fs))
           = Some (EvPrint light_red
                     "[-] ADB not found. Please install ADB and add it to your PATH.")
      else outcome_of (check_adb_availability env h fs) = Raise e
  end.
Proof.
  change (wp check_adb_availability env h fs (fun o evs _ =>
    match env_run env h ["adb"; "version"] false with
    | inl _ => o = Ret true
    | inr e =>
        if isinstance e FileNotFoundError
        then o = Exit 1 /\
             last evs = Some (EvPrint light_red
               "[-] ADB not found. Please install ADB and add it to your PATH.")
        else o = Raise e
    end)).
  wp_run; repeat case_match; simplify_eq; done.
Qed.

(** X2. Failing to start the screen mirror never stops the pipeline:
    [launch_scrcpy] does not exit and leaves no [Exception] to its caller,
    whatever [Popen] does, and it touches no local file. *)
Theorem launch_scrcpy_never_aborts env h fs :
  proceeds (outcome_of (launch_scrcpy env h fs)) /\
  (forall e, env_popen env h ["scrcpy"] = Some e -> isinstance e Exception = true ->
             outcome_of (launch_scrcpy env h fs) = Ret tt) /\
  files_after (launch_scrcpy env h fs) = fs.
Proof.
  change (wp launch_scrcpy env h fs (fun o _ fs' =>
    proceeds o /\
    (forall e, env_popen env h ["scrcpy"] = Some e -> isinstance e Exception = true ->
               o = Ret tt) /\
    fs' = fs)).
  wp_run; cbn [proceeds]; split_and!; try done; intros; simplify_eq; try done.
  all: congruence.
Qed.

Lemma launch_scrcpy_witness :
  outcome_of (launch_scrcpy
                (Scenario.no_mirror (mkExn PermissionError "Permission denied")) [] ∅)
  = Ret tt.
Proof.
  apply (proj1 (proj2 (launch_scrcpy_never_aborts
           (Scenario.no_mirror (mkExn PermissionError "Permission denied")) [] ∅))
         (mkExn PermissionError "Permission denied")); reflexivity.
Defined.

(** X3. [check_existing_frida_server] answers [True] exactly when the
    probe finishes with status 0; it answers [False] for any other status
    and when the probe raises an [Exception]; it never exits, and it
    touches no local file. *)
Theorem check_existing_outcome env h fs :
  match env_run env h ["adb"; "shell"; "ls"; remote_server_path] false with
  | inl cp =>
      outcome_of (check_existing_frida_server env h fs) = Ret (returncode cp =? 0)
  | inr e =>
      if isinstance e Exception
      then outcome_of (check_existing_frida_server env h fs) = Ret false
      else outcome_of (check_existing_frida_server env h fs) = Raise e
  end /\
  files_after (check_existing_frida_server env h fs) = fs.
Proof.
  change (wp check_existing_frida_server env h fs (fun o _ fs' =>
    match env_run env h ["adb"; "shell"; "ls"; remote_server_path] false with
    | inl cp => o = Ret (returncode cp =? 0)
    | inr e => if isinstance e Exception then o = Ret false else o = Raise e
    end /\ fs' = fs)).
  wp_run; (split; [|done]); repeat case_match; simplify_eq; congruence.
Qed.

(** X4. [get_device_arch] does not look at the exit status of the
    property query: whenever the query finishes it prints the stripped
    output as it is and returns its mapped form, and these are its only
    two events. *)
Theorem get_device_arch_ignores_exit_status env h fs cp :
  env_run env h ["adb"; "shell"; "getprop"; "ro.product.cpu.abi"] false = inl cp ->
  outcome_of (get_device_arch env h fs) = Ret (resolve (Text.strip (stdout cp))) /\
  emitted (get_device_arch env h fs)
  = [EvRun ["adb"; "shell"; "getprop"; "ro.product.cpu.abi"] false (inl cp);
     EvPrint light_green ("[✔] Device architecture: " +:+ Text.strip (stdout cp))].
Proof.
  intros Hrun.
  change (wp get_device_arch env h fs (fun o evs _ =>
    o = Ret (resolve (Text.strip (stdout cp))) /\
    evs = [EvRun ["adb"; "shell"; "getprop"; "ro.product.cpu.abi"] false (inl cp);
           EvPrint light_green ("[✔] Device architecture: " +:+ Text.strip (stdout cp))])).
  wp_run; simplify_eq; done.
Qed.

(** With no device the query fails with empty output, and the
    architecture is the empty string. *)
Lemma get_device_arch_witness :
  outcome_of (get_device_arch Sample.unplugged [] ∅) = Ret EmptyString.
Proof.
  apply (get_device_arch_ignores_exit_status Sample.unplugged [] ∅
           (mkCompleted 1 EmptyString "error: no devices/emulators found")).
  reflexivity.
Defined.

(** X5. Mapping an architecture twice changes nothing more: no tag of
    the table is itself a key of the table. *)
Theorem resolve_idempotent (arch : string) : resolve (resolve arch) = resolve arch.
Proof.
  destruct (decide (arch = "arm64-v8a")) as [->|]; [vm_compute; reflexivity|].
  destruct (decide (arch = "armeabi-v7a")) as [->|]; [vm_compute; reflexivity|].
  destruct (decide (arch = "x86")) as [->|]; [vm_compute; reflexivity|].
  destruct (decide (arch = "x86_64")) as [->|]; [vm_compute; reflexivity|].
  assert (Hid : resolve arch = arch).
  { unfold resolve, dict_get, arch_map.
    by rewrite !lookup_insert_ne, lookup_singleton_ne. }
  by rewrite !Hid.
Qed.

(** Steps through the library calls only; the functions of the program
    are left for their own lemmas. *)
Ltac is_library f :=
  lazymatch f with
  | @print_colored => idtac
  | @subprocess_run => idtac
  | @subprocess_check_output => idtac
  | @subprocess_popen => idtac
  | @time_sleep => idtac
  | @requests_get => idtac
  | @raise_for_status => idtac
  | @decode => idtac
  | @file_request => idtac
  | @file_missing => idtac
  | @os_path_exists => idtac
  | @open_write => idtac
  | @write_data => idtac
  | @open_read => idtac
  | @read_data => idtac
  | @read_text => idtac
  | @lzma_read => idtac
  | @os_remove => idtac
  | @frida => idtac
  | @stdin_read => idtac
  | @title => idtac
  end.

Ltac wp_library_step :=
  lazymatch goal with
  | |- wp (bind _ _) _ _ _ _ => wp_step
  | |- wp (try_except _ _) _ _ _ _ => wp_step
  | |- wp (ret _) _ _ _ _ => wp_step
  | |- wp (raise _) _ _ _ _ => wp_step
  | |- wp (sys_exit _) _ _ _ _ => wp_step
  | |- wp get_env _ _ _ _ => wp_step
  | |- wp get_files _ _ _ _ => wp_step
  | |- wp (request _) _ _ _ _ => wp_step
  | |- wp (if _ then _ else _) _ _ _ _ => wp_step
  | |- wp (match _ with _ => _ end) _ _ _ _ => wp_step
  | |- wp ?m _ _ _ _ => let f := head_of m in is_library f; wp_step
  | |- _ => wp_step
  end.

Ltac wp_library := repeat wp_library_step.

(** A property query, when commands finish with text output: one
    command, and a value. *)
Lemma wp_get_prop prop_name env h fs (Q : outcome string -> list Event -> files -> Prop) :
  every_command_completes env ->
  outputs_are_text env ->
  (forall cp value,
     Q (Ret value) [EvRun ["adb"; "shell"; "getprop"; prop_name] false (inl cp)] fs) ->
  wp (_get_prop prop_name) env h fs Q.
Proof.
  intros Hcompletes Htext HQ.
  wp_run; try apply HQ.
  all: try (destruct (Hcompletes h ["adb"; "shell"; "getprop"; prop_name] false);
            congruence).
  all: match goal with
       | H : env_run _ _ _ _ = inl ?c, D : Text.decode_utf8 (stdout ?c) = None |- _ =>
           unfold Text.decode_utf8 in D; rewrite (Htext _ _ _ _ H) in D; discriminate
       | H : isinstance (mkExn CalledProcessError _) CalledProcessError = false |- _ =>
           vm_compute in H; discriminate
       end.
Qed.

(** X6. The connectivity gate does not depend on the property queries:
    when [adb get-state] reports a device and the commands finish with
    text output, [check_device_connection] returns normally, whether the
    three queries succeed or fail. *)
Theorem check_device_connection_tolerates_queries env h fs cp :
  env_run env h ["adb"; "get-state"] false = inl cp ->
  Text.contains "device" (stdout cp) = true ->
  every_command_completes env ->
  outputs_are_text env ->
  outcome_of (check_device_connection env h fs) = Ret tt /\
  run_commands (emitted (check_device_connection env h fs))
  = [["adb"; "get-state"];
     ["adb"; "shell"; "getprop"; "ro.product.manufacturer"];
     ["adb"; "shell"; "getprop"; "ro.product.device"];
     ["adb"; "shell"; "getprop"; "ro.build.version.release"]].
Proof.
  intros Hrun Hdevice Hcompletes Htext.
  change (wp check_device_connection env h fs (fun o evs _ =>
    o = Ret tt /\
    run_commands evs
    = [["adb"; "get-state"];
       ["adb"; "shell"; "getprop"; "ro.product.manufacturer"];
       ["adb"; "shell"; "getprop"; "ro.product.device"];
       ["adb"; "shell"; "getprop"; "ro.build.version.release"]])).
  unfold check_device_connection.
  wp_library; simplify_eq; try (rewrite Hdevice in *; discriminate).
  apply wp_get_prop; [done..|]. intros cp1 manufacturer.
  wp_library.
  apply wp_get_prop; [done..|]. intros cp2 device.
  wp_library.
  apply wp_get_prop; [done..|]. intros cp3 release.
  wp_library. done.
Qed.

Lemma check_device_connection_witness :
  outcome_of (check_device_connection Scenario.mute [] ∅) = Ret tt.
Proof.
  apply (check_device_connection_tolerates_queries Scenario.mute [] ∅
           (mkCompleted 0 ("device" +:+ Text.nl) EmptyString)).
  - reflexivity.
  - reflexivity.
  - intros h argv shell. unfold Scenario.mute, Scenario.mute_properties; cbn.
    case_bool_decide; eauto.
  - intros h argv shell cp. unfold Scenario.mute, Scenario.mute_properties; cbn.
    case_bool_decide; intros [= <-]; reflexivity.
Defined.

(** ** The download *)

(** Every run of the download, in one pass over its paths. *)
Lemma download_summary version arch env h fs :
  http_urls (emitted (download_frida_server version arch env h fs))
  = [download_url version arch] /\
  match outcome_of (download_frida_server version arch env h fs) with
  | Ret name => name = "frida-server"
  | Exit c => c = 1
  | Raise e => isinstance e Exception = false
  end /\
  (existsb http_error (emitted (download_frida_server version arch env h fs)) = true ->
   outcome_of (download_frida_server version arch env h fs) = Exit 1 /\
   none_of is_file_request (emitted (download_frida_server version arch env h fs)) = true /\
   files_after (download_frida_server version arch env h fs) = fs) /\
  (forall path,
     path <> artifact_name version arch +:+ ".xz" ->
     path <> "frida-server" ->
     path <> artifact_name version arch ->
     files_after (download_frida_server version arch env h fs) !! path = fs !! path).
Proof.
  change (wp (download_frida_server version arch) env h fs (fun o evs fs' =>
    http_urls evs = [download_url version arch] /\
    match o with
    | Ret name => name = "frida-server"
    | Exit c => c = 1
    | Raise e => isinstance e Exception = false
    end /\
    (existsb http_error evs = true ->
     o = Exit 1 /\ none_of is_file_request evs = true /\ fs' = fs) /\
    (forall path,
       path <> artifact_name version arch +:+ ".xz" ->
       path <> "frida-server" ->
       path <> artifact_name version arch ->
       fs' !! path = fs !! path))).
  wp_run; (split; [reflexivity|]); (split; [done|]); split.
  all: try (intros path ? ? ?; rewrite ?lookup_delete_ne, ?lookup_insert_ne by done; done).
  all: cbn [existsb http_error orb]; rewrite ?Heqb; try done.
  all: match goal with
       | H : isinstance (mkExn HTTPError _) Exception = false |- _ =>
           vm_compute in H; discriminate
       end.
Qed.

(** X7. An error status of the release server is fatal before anything
    is stored: [download_frida_server] exits with status 1 without a
    single request to the local files. *)
Theorem download_http_error_exits version arch env h fs :
  existsb http_error (emitted (download_frida_server version arch env h fs)) = true ->
  outcome_of (download_frida_server version arch env h fs) = Exit 1 /\
  none_of is_file_request (emitted (download_frida_server version arch env h fs)) = true /\
  files_after (download_frida_server version arch env h fs) = fs.
Proof.
  apply (download_summary version arch env h fs).
Qed.

Lemma download_http_error_witness :
  outcome_of (download_frida_server frida_version "android-arm64"
                (Scenario.release_status 404) [] ∅) = Exit 1.
Proof.
  apply (download_http_error_exits frida_version "android-arm64"
           (Scenario.release_status 404) [] ∅).
  vm_compute; reflexivity.
Defined.

(** X8. [download_frida_server] leaves no [Exception] to its caller: it
    returns "frida-server", or exits with status 1, or is interrupted by
    something that is not an [Exception]. *)
Theorem download_never_raises_exception version arch env h fs :
  match outcome_of (download_frida_server version arch env h fs) with
  | Ret name => name = "frida-server"
  | Exit c => c = 1
  | Raise e => isinstance e Exception = false
  end.
Proof.
  apply (download_summary version arch env h fs).
Qed.

(** X9. Every run of [download_frida_server] makes exactly one HTTP
    request, for the address built from the version and the architecture:
    there is no retry and no second source. *)
Theorem download_requests_once version arch env h fs :
  http_urls (emitted (download_frida_server version arch env h fs))
  = [download_url version arch].
Proof.
  apply (download_summary version arch env h fs).
Qed.

Lemma append_empty_l (s : string) : EmptyString +:+ s = s.
Proof. reflexivity. Qed.

(** X10. A body that does not decompress is fatal and nothing is tidied
    up: the run exits with status 1, the compressed file stays with the
    body as received, and "frida-server" stays, created and empty. *)
Theorem failed_decompression_leaves_files version arch env h fs body :
  files_never_fail env ->
  downloaded (emitted (download_frida_server version arch env h fs)) = [body] ->
  env_lzma_decompress env body = None ->
  outcome_of (download_frida_server version arch env h fs) = Exit 1 /\
  files_after (download_frida_server version arch env h fs)
    !! compressed_name version arch = Some body /\
  files_after (download_frida_server version arch env h fs) !! "frida-server"
  = Some EmptyString.
Proof.
  intros Hfiles.
  change (wp (download_frida_server version arch) env h fs (fun o evs fs' =>
    downloaded evs = [body] -> env_lzma_decompress env body = None ->
    o = Exit 1 /\
    fs' !! compressed_name version arch = Some body /\
    fs' !! "frida-server" = Some EmptyString)).
  pose proof (compressed_name_not_server version arch).
  unfold compressed_name.
  wp_run; cbn [downloaded]; rewrite ?Heqb; intros Hbody Hlzma; simplify_eq.
  all: try match goal with
       | H : env_file_failure _ _ _ = Some _ |- _ => rewrite Hfiles in H; discriminate
       end.
  all: rewrite ?lookup_insert_eq in *; cbn [default from_option id String.append] in *.
  all: rewrite ?lookup_insert_ne, ?lookup_insert_eq in * by done;
       cbn [default from_option id] in *; rewrite ?append_empty_l in *.
  all: try congruence.
  done.
Qed.

Lemma failed_decompression_witness :
  outcome_of (download_frida_server frida_version "android-arm64"
                Scenario.corrupt_release [] ∅) = Exit 1 /\
  files_after (download_frida_server frida_version "android-arm64"
                 Scenario.corrupt_release [] ∅)
    !! compressed_name frida_version "android-arm64" = Some "not-xz".
Proof.
  destruct (failed_decompression_leaves_files frida_version "android-arm64"
              Scenario.corrupt_release [] ∅ "not-xz") as (Hexit & Hxz & _).
  - intros h op. reflexivity.
  - vm_compute; reflexivity.
  - reflexivity.
  - split; [exact Hexit | exact Hxz].
Defined.

Lemma download_frame version arch env h fs (path : string) :
  path <> artifact_name version arch +:+ ".xz" ->
  path <> "frida-server" ->
  path <> artifact_name version arch ->
  files_after (download_frida_server version arch env h fs) !! path = fs !! path.
Proof.
  apply (download_summary version arch env h fs).
Qed.

(** X11. [download_frida_server] touches three local paths only, the
    compressed file, "frida-server" and the artifact name without
    extension: every other file is as it was, however the run ends. *)
Theorem download_touches_three_paths version arch env h fs (path : string) :
  path <> compressed_name version arch ->
  path <> "frida-server" ->
  path <> artifact_name version arch ->
  files_after (download_frida_server version arch env h fs) !! path = fs !! path.
Proof.
  intros Hxz Hserver Hstale. by apply download_frame.
Qed.

Lemma download_touches_three_paths_witness :
  files_after (download_frida_server frida_version "android-arm64"
                 Sample.fresh [] Scenario.crowded) !! "notes.txt"
  = Some "keep me".
Proof.
  rewrite (download_touches_three_paths frida_version "android-arm64"
             Sample.fresh [] Scenario.crowded "notes.txt");
    [vm_compute; reflexivity | discriminate ..].
Defined.

(** X12. A download that returns has removed a file left under the
    artifact name without extension, and has replaced whatever
    "frida-server" held before. *)
Theorem download_removes_stale_artifact version arch env h fs name :
  outcome_of (download_frida_server version arch env h fs) = Ret name ->
  files_after (download_frida_server version arch env h fs)
    !! artifact_name version arch = None /\
  (forall body data,
     downloaded (emitted (download_frida_server version arch env h fs)) = [body] ->
     env_lzma_decompress env body = Some data ->
     files_after (download_frida_server version arch env h fs) !! "frida-server"
     = Some data).
Proof.
  change (wp (download_frida_server version arch) env h fs (fun o evs fs' =>
    o = Ret name ->
    fs' !! artifact_name version arch = None /\
    (forall body data,
       downloaded evs = [body] -> env_lzma_decompress env body = Some data ->
       fs' !! "frida-server" = Some data))).
  pose proof (artifact_name_not_server version arch).
  pose proof (compressed_name_not_server version arch).
  wp_run; intros Hret; simplify_eq.
  all: rewrite ?lookup_insert_eq in *; cbn [default from_option id String.append] in *.
  all: rewrite ?lookup_insert_ne, ?lookup_insert_eq in * by done;
       cbn [default from_option id downloaded] in *; rewrite ?append_empty_l in *.
  all: rewrite ?Heqb.
  all: split; [|intros body data [= <-] Hdata].
  all: rewrite ?lookup_delete, ?lookup_insert; repeat case_decide; simplify_eq; try done.
  apply bool_decide_eq_false in Heqb0.
  rewrite ?lookup_delete_ne, ?lookup_insert_ne in Heqb0 by done.
  by apply eq_None_not_Some.
Qed.

Lemma download_removes_stale_witness :
  files_after (download_frida_server frida_version "android-arm64"
                 Sample.fresh [] Scenario.crowded)
    !! artifact_name frida_version "android-arm64" = None /\
  files_after (download_frida_server frida_version "android-arm64"
                 Sample.fresh [] Scenario.crowded) !! "frida-server"
  = Some "ELFxz-stream".
Proof.
  destruct (download_removes_stale_artifact frida_version "android-arm64"
              Sample.fresh [] Scenario.crowded "frida-server") as [Hstale Hnew];
    [vm_compute; reflexivity|].
  split; [exact Hstale|].
  apply (Hnew "xz-stream" "ELFxz-stream"); vm_compute; reflexivity.
Defined.

(** ** Starting the server, in detail *)

(** X13. [start_frida] starts its commands in a fixed order: kill, then
    the push when it is given a non-empty file name, then chmod, then
    launch.  Every run starts an initial part of that list, all of it when
    the commands finish; [None] and the empty name alike mean no push. *)
Theorem start_frida_command_order (filename : option string) env h fs :
  run_commands (emitted (start_frida filename env h fs))
    `prefix_of` deploy_commands filename /\
  (every_command_completes env ->
   run_commands (emitted (start_frida filename env h fs)) = deploy_commands filename) /\
  files_after (start_frida filename env h fs) = fs.
Proof.
  change (wp (start_frida filename) env h fs (fun _ evs fs' =>
    run_commands evs `prefix_of` deploy_commands filename /\
    (every_command_completes env -> run_commands evs = deploy_commands filename) /\
    fs' = fs)).
  unfold deploy_commands.
  wp_run; cbn [run_commands].
  all: try destruct (truthy filename).
  all: (split; [by eexists|]); (split; [|done]); intros Hcompletes; try done.
  all: match goal with
       | H : env_run _ ?h' ?argv ?shell = inr _ |- _ =>
           destruct (Hcompletes h' argv shell); congruence
       end.
Qed.

Lemma start_frida_command_order_witness :
  run_commands (emitted (start_frida (Some EmptyString) Sample.provisioned [] ∅))
  = [kill_argv; chmod_argv; launch_argv].
Proof.
  apply (start_frida_command_order (Some EmptyString) Sample.provisioned [] ∅).
  intros h argv shell. exact (bridge_completes "device" "arm64-v8a" 0 argv).
Defined.

(** ** The payload and the session *)

(** X14. [_load_js_code] returns nothing but the text of the file at the
    path, as a read in text mode gives it (decoded, with the ends of lines
    turned into line feeds); it leaves no [Exception] to its caller (a
    missing file, a failed read or bytes that are not text are reported and
    end in exit status 1) and changes no local file. *)
Theorem load_js_code_outcome (path : string) env h fs :
  match outcome_of (_load_js_code path env h fs) with
  | Ret code => exists raw, fs !! path = Some raw /\ read_as_text env raw = Some code
  | Exit c => c = 1
  | Raise e => isinstance e Exception = false
  end /\
  files_after (_load_js_code path env h fs) = fs.
Proof.
  change (wp (_load_js_code path) env h fs (fun o _ fs' =>
    match o with
    | Ret code => exists raw, fs !! path = Some raw /\ read_as_text env raw = Some code
    | Exit c => c = 1
    | Raise e => isinstance e Exception = false
    end /\ fs' = fs)).
  unfold read_as_text.
  wp_run; (split; [|done]); try done.
  eexists; split; [reflexivity|].
  match goal with
  | H : env_decode_text _ _ = Some _ |- _ =>
      rewrite Heqo in H; cbn [default from_option id] in H; by rewrite H
  end.
Qed.

(** Carriage returns do not reach the caller, and a payload that is not
    text ends the run. *)
Example payload_newlines_translated :
  outcome_of (_load_js_code script_path Sample.provisioned [] Scenario.dos_payload)
  = Ret ("send(1);" +:+ Text.nl +:+ "send(2);" +:+ Text.nl).
Proof. vm_compute; reflexivity. Qed.

Example payload_not_text_exits :
  outcome_of (_load_js_code script_path Sample.provisioned [] Scenario.binary_payload)
  = Exit 1.
Proof. vm_compute; reflexivity. Qed.

(** X15. In a session that is set up completely the values flow as they
    should: the connection is asked for with a timeout of 5, the target is
    spawned on the device it returned, the process id of the spawn is the
    one attached to and resumed, the script is created on the session of
    the attach from the text of the payload file as a read in text mode
    gives it, and the handler is registered for "message" on that script
    before it is loaded. *)
Theorem session_wires_its_handles env h fs :
  outcome_of (hook_proxygen_SSLVerification env h fs) = Ret tt ->
  exists device pid session script raw code r1 r2 r3,
    fs !! script_path = Some raw /\
    read_as_text env raw = Some code /\
    frida_exchanges (emitted (hook_proxygen_SSLVerification env h fs))
    = [(GetUsbDevice 5, inl device);
       (Spawn device [target_app], inl pid);
       (Attach device pid, inl session);
       (Resume device pid, inl r1);
       (CreateScript session code, inl script);
       (ScriptOn script "message", inl r2);
       (ScriptLoad script, inl r3)].
Proof.
  change (wp hook_proxygen_SSLVerification env h fs (fun o evs _ =>
    o = Ret tt ->
    exists device pid session script raw code r1 r2 r3,
      fs !! script_path = Some raw /\
      read_as_text env raw = Some code /\
      frida_exchanges evs
      = [(GetUsbDevice 5, inl device);
         (Spawn device [target_app], inl pid);
         (Attach device pid, inl session);
         (Resume device pid, inl r1);
         (CreateScript session code, inl script);
         (ScriptOn script "message", inl r2);
         (ScriptLoad script, inl r3)])).
  unfold read_as_text.
  wp_run; intros Hret; simplify_eq.
  cbn [frida_exchanges].
  eexists _, _, _, _, _, _, _, _, _. split; [reflexivity|]. split; [|reflexivity].
  match goal with
  | H : env_decode_text _ _ = Some _ |- _ =>
      rewrite Heqo in H; cbn [default from_option id] in H; by rewrite H
  end.
Qed.

Lemma session_wires_its_handles_witness :
  exists device pid session script raw code r1 r2 r3,
    Scenario.dos_payload !! script_path = Some raw /\
    read_as_text Sample.provisioned raw = Some code /\
    frida_exchanges (emitted (hook_proxygen_SSLVerification
                                Sample.provisioned [] Scenario.dos_payload))
    = [(GetUsbDevice 5, inl device);
       (Spawn device [target_app], inl pid);
       (Attach device pid, inl session);
       (Resume device pid, inl r1);
       (CreateScript session code, inl script);
       (ScriptOn script "message", inl r2);
       (ScriptLoad script, inl r3)].
Proof.
  apply (session_wires_its_handles Sample.provisioned [] Scenario.dos_payload).
  vm_compute; reflexivity.
Defined.

(** X16. The session stage keeps to its own business: it starts no
    command, makes no HTTP request, and neither writes nor removes a local
    file; the local files are as they were when it ends. *)
Theorem session_footprint env h fs :
  forallb session_event (emitted (hook_proxygen_SSLVerification env h fs)) = true /\
  files_after (hook_proxygen_SSLVerification env h fs) = fs.
Proof.
  assert (H : respects session_event true hook_proxygen_SSLVerification)
    by solve_respects.
  destruct (H env h fs) as [Hev Hfs]. auto.
Qed.

(** ** The exit status *)

Lemma exits_ret {A} (a : A) : exits_with_one (ret a).
Proof. done. Qed.

Lemma exits_raise {A} e : exits_with_one (@raise A e).
Proof. done. Qed.

Lemma exits_sys_exit {A} : exits_with_one (@sys_exit A 1).
Proof. done. Qed.

Lemma exits_get_env : exits_with_one get_env.
Proof. done. Qed.

Lemma exits_get_files : exits_with_one get_files.
Proof. done. Qed.

Lemma exits_request {A} (ask : Env -> list Event -> files -> outcome A * Event * files) :
  (forall env h fs, match (ask env h fs).1.1 with Exit c => c = 1 | _ => True end) ->
  exits_with_one (request ask).
Proof.
  intros H env h fs. specialize (H env h fs). unfold request.
  by destruct (ask env h fs) as [[o ev] fs'].
Qed.

Lemma exits_bind {A B} (m : M A) (k : A -> M B) :
  exits_with_one m -> (forall a, exits_with_one (k a)) -> exits_with_one (bind m k).
Proof.
  intros Hm Hk env h fs. unfold bind. specialize (Hm env h fs).
  destruct (m env h fs) as [[a|e|c] evs fs1]; cbn in *; [|done..].
  specialize (Hk a env (rev_append evs h) fs1).
  by destruct (k a env (rev_append evs h) fs1).
Qed.

Lemma exits_try_except {A} (body : M A) clauses :
  exits_with_one body ->
  (forall e handler, clauses e = Some handler -> exits_with_one handler) ->
  exits_with_one (try_except body clauses).
Proof.
  intros Hb Hc env h fs. unfold try_except. specialize (Hb env h fs).
  destruct (body env h fs) as [[a|e|c] evs fs1]; cbn in *; [done| |done].
  destruct (clauses e) as [handler|] eqn:Hcl; [|done].
  specialize (Hc e handler Hcl env (rev_append evs h) fs1).
  by destruct (handler env (rev_append evs h) fs1).
Qed.

Ltac exits_step :=
  lazymatch goal with
  | |- exits_with_one (bind _ _) => apply exits_bind; [ | intros ? ]
  | |- exits_with_one (try_except _ _) =>
      apply exits_try_except;
      [ | let H := fresh "Hclause" in
          intros ? ? H; cbn beta in H; repeat case_match; simplify_eq ]
  | |- exits_with_one (ret _) => apply exits_ret
  | |- exits_with_one (raise _) => apply exits_raise
  | |- exits_with_one (sys_exit _) => apply exits_sys_exit
  | |- exits_with_one get_env => apply exits_get_env
  | |- exits_with_one get_files => apply exits_get_files
  | |- exits_with_one (request _) =>
      apply exits_request; intros; cbn [fst snd];
      unfold of_reply, of_failure; repeat case_match; done
  | |- exits_with_one (if ?b then _ else _) => destruct b
  | |- exits_with_one (match ?x with _ => _ end) =>
      first [ progress cbn [truthy] | destruct x ]
  | |- exits_with_one ?m => let f := head_of m in unfold f
  end.

(** X17. Whenever the script ends through [sys.exit], at whatever stage,
    the exit status is 1. *)
Theorem main_exits_with_one env h fs :
  match outcome_of (main env h fs) with
  | Exit c => c = 1
  | _ => True
  end.
Proof.
  assert (H : exits_with_one main) by repeat exits_step.
  exact (H env h fs).
Qed.

(** ** The local files of the provisioning stage *)

Lemma server_prefix_of_artifact version arch :
  String.prefix "frida-server" (artifact_name version arch) = true /\
  String.prefix "frida-server" (artifact_name version arch +:+ ".xz") = true.
Proof. split; reflexivity. Qed.

Lemma download_returns_server version arch env h fs name :
  outcome_of (download_frida_server version arch env h fs) = Ret name ->
  name = "frida-server".
Proof.
  intros Hret.
  pose proof (proj1 (proj2 (download_summary version arch env h fs))) as H.
  by rewrite Hret in H.
Qed.

Lemma wp_download_frame version arch env h fs
    (Q : outcome string -> list Event -> files -> Prop) :
  (forall o evs fs',
     (forall path, String.prefix "frida-server" path = false ->
                   fs' !! path = fs !! path) ->
     (forall name, o = Ret name -> name = "frida-server") ->
     Q o evs fs') ->
  wp (download_frida_server version arch) env h fs Q.
Proof.
  intros HQ. apply HQ.
  - intros path Hpath.
    destruct (server_prefix_of_artifact version arch) as [Hstale Hxz].
    apply download_frame; intros ->; first [congruence | discriminate].
  - intros name. apply download_returns_server.
Qed.

(** X18. The provisioning stage creates, changes and removes only local
    files whose name starts with "frida-server": every other file, the
    payload among them, is as it was when [start_frida_server] ends,
    however it ends. *)
Theorem provisioning_keeps_other_files env h fs (path : string) :
  String.prefix "frida-server" path = false ->
  files_after (start_frida_server env h fs) !! path = fs !! path.
Proof.
  intros Hpath.
  change (wp start_frida_server env h fs (fun _ _ fs' => fs' !! path = fs !! path)).
  unfold start_frida_server.
  setup_step print_is_setup.
  setup_step check_adb_is_setup.
  setup_step check_device_is_setup.
  setup_step launch_scrcpy_is_setup.
  setup_step get_device_arch_is_setup.
  setup_step print_is_setup.
  apply wp_bind, wp_check_existing.
  intros o probe rest _ _ _ _.
  destruct o as [[|]| |]; [ | | trace_goal; done ..].
  - eapply wp_respects; [apply start_frida_none_is_setup|].
    intros o evs' fs' _ Hfs'. rewrite (Hfs' eq_refl). by trace_goal.
  - assert (Hserver : "frida-server" <> path) by (intros <-; discriminate).
    apply wp_bind, wp_download_frame.
    intros o evs' fs' Hframe Hname.
    destruct o as [name| |]; [ | trace_goal; auto ..].
    rewrite (Hname name eq_refl).
    eapply wp_bind_respects; [apply start_frida_is_deploy|].
    intros o evs'' fs'' _ Hfs''. specialize (Hfs'' eq_refl). subst fs''.
    destruct o; [ | trace_goal; auto ..].
    wp_run; trace_goal; rewrite ?lookup_delete_ne by done; auto.
    destruct (env_file_failure _ _ _); rewrite ?lookup_delete_ne by done; auto.
Qed.

Lemma provisioning_keeps_other_files_witness :
  files_after (start_frida_server Sample.fresh [] Scenario.crowded) !! script_path
  = Some "Interceptor.attach(...)".
Proof.
  rewrite (provisioning_keeps_other_files Sample.fresh [] Scenario.crowded script_path);
    vm_compute; reflexivity.
Defined.

(** ** The order of the stages *)

Lemma not_frida_facts evs :
  forallb not_frida evs = true -> existsb is_frida evs = false.
Proof.
  apply existsb_none. unfold not_frida. by intros ev ?%negb_true_iff.
Qed.

Lemma start_frida_reports filename env h fs :
  outcome_of (start_frida filename env h fs) = Ret tt ->
  EvPrint light_green server_running_message ∈ emitted (start_frida filename env h fs).
Proof.
  change (wp (start_frida filename) env h fs (fun o evs _ =>
    o = Ret tt -> EvPrint light_green server_running_message ∈ evs)).
  wp_run; intros Hret; try discriminate; set_solver.
Qed.

Lemma wp_start_frida_reports filename env h fs
    (Q : outcome unit -> list Event -> files -> Prop) :
  (forall o evs,
     (o = Ret tt -> EvPrint light_green server_running_message ∈ evs) ->
     Q o evs fs) ->
  wp (start_frida filename) env h fs Q.
Proof.
  intros HQ. unfold wp.
  destruct (start_frida_is_deploy filename env h fs) as [_ Hfs].
  rewrite (Hfs eq_refl). apply HQ. apply start_frida_reports.
Qed.

Lemma start_frida_server_reports env h fs :
  outcome_of (start_frida_server env h fs) = Ret tt ->
  EvPrint light_green server_running_message ∈ emitted (start_frida_server env h fs).
Proof.
  change (wp start_frida_server env h fs (fun o evs _ =>
    o = Ret tt -> EvPrint light_green server_running_message ∈ evs)).
  unfold start_frida_server.
  setup_step print_is_setup.
  setup_step check_adb_is_setup.
  setup_step check_device_is_setup.
  setup_step launch_scrcpy_is_setup.
  setup_step get_device_arch_is_setup.
  setup_step print_is_setup.
  apply wp_bind, wp_check_existing.
  intros o probe rest _ _ _ _.
  destruct o as [[|]| |]; [ | | trace_goal; done ..].
  - apply wp_start_frida_reports. intros o evs' Hreport.
    trace_goal. intros Hret. specialize (Hreport Hret). set_solver.
  - apply wp_bind. unfold wp at 1.
    destruct (outcome_of (download_frida_server _ _ _ _ _)); [ | trace_goal; done ..].
    apply wp_bind, wp_start_frida_reports. intros o evs' Hreport.
    destruct o as [[]| |]; [ | trace_goal; done ..].
    specialize (Hreport eq_refl).
    wp_run; trace_goal; intros _; set_solver.
Qed.

Lemma wp_server_stage env h fs (Q : outcome unit -> list Event -> files -> Prop) :
  (forall o evs fs',
     forallb not_frida evs = true ->
     (o = Ret tt -> EvPrint light_green server_running_message ∈ evs) ->
     Q o evs fs') ->
  wp start_frida_server env h fs Q.
Proof.
  intros HQ. apply HQ.
  - assert (H : respects not_frida false start_frida_server) by solve_respects.
    apply H.
  - apply start_frida_server_reports.
Qed.

(** X19. The stages are gated: a call of the instrumentation runtime is
    only ever made after [start_frida] has run to its last line.  In every
    run of the script with such a call, the events split into a first part
    that holds the report of the running server and no call of the
    runtime, and the rest. *)
Theorem session_only_after_server_start env h fs :
  existsb is_frida (emitted (main env h fs)) = true ->
  exists before rest,
    emitted (main env h fs) = before ++ rest /\
    none_of is_frida before = true /\
    EvPrint light_green server_running_message ∈ before.
Proof.
  change (wp main env h fs (fun _ evs _ =>
    existsb is_frida evs = true ->
    exists before rest,
      evs = before ++ rest /\
      none_of is_frida before = true /\
      EvPrint light_green server_running_message ∈ before)).
  unfold main.
  eapply wp_bind_respects with (P := not_frida) (keep := false); [solve_respects|].
  intros o evs0 fs0 Hev0 _. pose proof (not_frida_facts _ Hev0) as Hno0.
  destruct o; [ | trace_goal; done ..].
  apply wp_bind, wp_server_stage. intros o evs1 fs1 Hev1 Hreport.
  pose proof (not_frida_facts _ Hev1) as Hno1.
  destruct o as [[]| |]; [ | trace_goal; done ..].
  specialize (Hreport eq_refl).
  unfold wp, after. intros _.
  exists (evs0 ++ evs1), (emitted (hook_proxygen_SSLVerification env
                                    (rev_append evs1 (rev_append evs0 h)) fs1)).
  split; [by rewrite app_assoc|]. split; [|set_solver].
  change (forallb not_frida (evs0 ++ evs1) = true).
  by rewrite forallb_app, Hev0, Hev1.
Qed.

Lemma session_only_after_server_start_witness :
  exists before rest,
    emitted (main Sample.provisioned [] Sample.with_payload) = before ++ rest /\
    none_of is_frida before = true /\
    EvPrint light_green server_running_message ∈ before.
Proof.
  apply (session_only_after_server_start Sample.provisioned [] Sample.with_payload).
  vm_compute; reflexivity.
Defined.

(** ** A failed download *)

Lemma not_http_facts evs :
  forallb not_http evs = true -> existsb http_error evs = false.
Proof.
  apply existsb_none. unfold not_http. intros ev ?%negb_true_iff.
  by destruct ev as [| | | |? []| | |].
Qed.

Lemma before_download_facts evs :
  forallb before_download_event evs = true ->
  existsb http_error evs = false /\ forallb before_deploy_event evs = true.
Proof.
  intros H. split.
  - apply not_http_facts. eapply forallb_weaken, H.
    unfold before_download_event, not_http. by intros ev [_ ?]%andb_true_iff.
  - eapply forallb_weaken, H.
    unfold before_download_event. by intros ev [? _]%andb_true_iff.
Qed.

Lemma before_deploy_split evs :
  forallb before_deploy_event evs = true ->
  none_of is_push evs = true /\
  none_of is_shell_command evs = true /\
  none_of is_frida evs = true.
Proof.
  unfold none_of, before_deploy_event. induction evs as [|ev evs IH]; cbn; [done|].
  rewrite !andb_true_iff. intros [[[? ?] ?] Hevs]. destruct (IH Hevs) as (? & ? & ?).
  auto.
Qed.

Lemma wp_download_error version arch env h fs
    (Q : outcome string -> list Event -> files -> Prop) :
  (forall o evs fs',
     forallb before_deploy_event evs = true ->
     (existsb http_error evs = true -> o = Exit 1) ->
     Q o evs fs') ->
  wp (download_frida_server version arch) env h fs Q.
Proof.
  intros HQ. apply HQ.
  - assert (H : respects before_deploy_event false (download_frida_server version arch))
      by solve_respects.
    apply H.
  - intros Herr.
    apply (proj1 (proj2 (proj2 (download_summary version arch env h fs))) Herr).
Qed.

Ltac before_download_step :=
  eapply wp_bind_respects with (P := before_download_event) (keep := false);
  [solve_respects|];
  let o := fresh "o" in
  let evs := fresh "evs" in
  let Hev := fresh "Hev" in
  intros o evs ? Hev _;
  destruct (before_download_facts _ Hev) as [? ?];
  destruct o; [ | trace_goal; try done .. ].

Ltac not_http_step :=
  eapply wp_respects with (P := not_http) (keep := false);
  [solve_respects|];
  let o := fresh "o" in
  let evs := fresh "evs" in
  let Hev := fresh "Hev" in
  intros o evs ? Hev _;
  pose proof (not_http_facts _ Hev);
  destruct o; [ | trace_goal; try done .. ].

Lemma failed_download_run env h fs :
  existsb http_error (emitted (main env h fs)) = true ->
  outcome_of (main env h fs) = Exit 1 /\
  forallb before_deploy_event (emitted (main env h fs)) = true.
Proof.
  change (wp main env h fs (fun o evs _ =>
    existsb http_error evs = true ->
    o = Exit 1 /\ forallb before_deploy_event evs = true)).
  unfold main.
  before_download_step.
  apply wp_bind. unfold start_frida_server.
  do 7 before_download_step.
  match goal with a : bool |- _ => destruct a end.
  - not_http_step. trace_goal.
    not_http_step. trace_goal. done.
  - apply wp_bind, wp_download_error. intros o evs' fs' Hquiet Herr.
    destruct (existsb http_error evs') eqn:Hhttp.
    + rewrite (Herr eq_refl). trace_goal. done.
    + destruct o; [ | trace_goal; done ..].
      not_http_step. trace_goal.
      not_http_step. trace_goal. done.
Qed.

(** X20. When the release server answers the download with an error
    status, the whole script ends with exit status 1 and the server is
    never deployed or used: no push, no command handed to the shell (kill,
    chmod, launch) and no call of the instrumentation runtime is made in
    that run. *)
Theorem failed_download_aborts_pipeline env h fs :
  existsb http_error (emitted (main env h fs)) = true ->
  outcome_of (main env h fs) = Exit 1 /\
  none_of is_push (emitted (main env h fs)) = true /\
  none_of is_shell_command (emitted (main env h fs)) = true /\
  none_of is_frida (emitted (main env h fs)) = true.
Proof.
  intros Herr. destruct (failed_download_run env h fs Herr) as [Hexit Hquiet].
  destruct (before_deploy_split _ Hquiet) as (? & ? & ?). auto.
Qed.

Lemma failed_download_witness :
  outcome_of (main (Scenario.release_status 404) [] Sample.with_payload) = Exit 1 /\
  none_of is_push (emitted (main (Scenario.release_status 404) [] Sample.with_payload))
  = true /\
  none_of is_shell_command
    (emitted (main (Scenario.release_status 404) [] Sample.with_payload)) = true /\
  none_of is_frida (emitted (main (Scenario.release_status 404) [] Sample.with_payload))
  = true.
Proof.
  apply (failed_download_aborts_pipeline (Scenario.release_status 404) []
           Sample.with_payload).
  vm_compute; reflexivity.
Defined.

(** ** The fuel of the text functions *)

Lemma space_head_shorter s rest :
  Text.space_head s = Some rest -> (String.length rest < String.length s)%nat.
Proof.
  unfold Text.space_head.
  destruct s as [|c0 [|c1 [|c2 r2]]]; repeat case_match; intros; simplify_eq; cbn; lia.
Qed.

Lemma lstrip_fuel_enough fuel s :
  (String.length s <= fuel)%nat -> Text.space_head (Text.lstrip_fuel fuel s) = None.
Proof.
  revert s. induction fuel as [|fuel IH]; intros s Hlen; cbn.
  - destruct s; [done | cbn in Hlen; lia].
  - destruct (Text.space_head s) as [rest|] eqn:Hhead; [|done].
    apply IH. apply space_head_shorter in Hhead. lia.
Qed.

(** The length of the text is enough fuel for [lstrip]: what it returns
    does not start with white space. *)
Lemma lstrip_complete s : Text.space_head (Text.lstrip s) = None.
Proof. by apply lstrip_fuel_enough. Qed.

(** Every class reaches the root within the fuel of [issubclass]. *)
Lemma issubclass_root c : issubclass c BaseException = true.
Proof. by destruct c. Qed.
